(** * get_stat_repo: repository statistics over a time window

    A shallow embedding of [get_stat_repo.py] and the properties its
    specification states about it.

    Python values that come out of [response.json()] are modelled by the
    inductive type [json]; text is ASCII text ([string]); exceptions are
    values of the type [exn] carried by the result type [result] (pure code) or
    by [outcome] (code with effects).  The file [error.log], standard output,
    the wall clock and the HTTP server are the components of the record
    [world], threaded through the monad [M]. *)

From Stdlib Require Import ZArith List Bool Ascii String Lia DecimalString.
From Stdlib Require Import Permutation Sorted.
Import ListNotations.

Set Warnings "-register-all".

Local Open Scope string_scope.
Local Open Scope Z_scope.

(** * Values, exceptions, results *)

(** A decoded JSON document.  An object keeps its members in document order;
    [json.loads] keeps one value per key, so lookup takes the first match.
    JSON numbers with a fraction are left out: the program reads no number. *)
Inductive json : Type :=
| JNull
| JBool (b : bool)
| JInt (n : Z)
| JStr (s : string)
| JArr (items : list json)
| JObj (members : list (string * json)).

(** The exceptions the program can meet.  [str_exn] is Python's [str(e)]; the
    wording of the messages follows CPython and no property relies on it. *)
Inductive exn : Type :=
| KeyError (key : string)
| TypeError (msg : string)
| ValueError (msg : string)
| OverflowError (msg : string)
| AttributeError (msg : string)
| IndexError (msg : string)
| EOFError (msg : string)
| ConnectionError (msg : string).

Definition str_exn (e : exn) : string :=
  match e with
  | KeyError k => "'" ++ k ++ "'"
  | TypeError m | ValueError m | OverflowError m | AttributeError m
  | IndexError m | EOFError m | ConnectionError m => m
  end.

Inductive result (A : Type) : Type :=
| Ok (a : A)
| Err (e : exn).
Arguments Ok {A} a.
Arguments Err {A} e.

Definition rbind {A B} (r : result A) (f : A -> result B) : result B :=
  match r with
  | Ok a => f a
  | Err e => Err e
  end.

Declare Scope result_scope.
Delimit Scope result_scope with result.
Notation "x <- r ;; k" := (rbind r (fun x => k))
  (at level 61, r at next level, right associativity) : result_scope.

(** Python's [type(v).__name__]. *)
Definition type_name (v : json) : string :=
  match v with
  | JNull => "NoneType"
  | JBool _ => "bool"
  | JInt _ => "int"
  | JStr _ => "str"
  | JArr _ => "list"
  | JObj _ => "dict"
  end.

(** Python dictionaries keep their keys in the order of first insertion. *)
Section Dict.
Context {K V : Type} (eqb : K -> K -> bool).

Fixpoint dict_get (k : K) (d : list (K * V)) : option V :=
  match d with
  | [] => None
  | (k', v) :: d' => if eqb k k' then Some v else dict_get k d'
  end.

(** [d[k] = v] *)
Fixpoint dict_set (k : K) (v : V) (d : list (K * V)) : list (K * V) :=
  match d with
  | [] => [(k, v)]
  | (k', v') :: d' => if eqb k k' then (k', v) :: d' else (k', v') :: dict_set k v d'
  end.
End Dict.

(** [v[key]] for a string key. *)
Definition subscript (v : json) (key : string) : result json :=
  match v with
  | JObj d =>
      match dict_get String.eqb key d with
      | Some x => Ok x
      | None => Err (KeyError key)
      end
  | JArr _ => Err (TypeError "list indices must be integers or slices, not str")
  | JStr _ => Err (TypeError "string indices must be integers")
  | _ => Err (TypeError ("'" ++ type_name v ++ "' object is not subscriptable"))
  end.

(** [v == s] for a string literal [s]. *)
Definition py_eq_str (v : json) (s : string) : bool :=
  match v with
  | JStr s' => String.eqb s' s
  | _ => false
  end.

(** The items [for row in v] visits: a list yields its elements, a dict its
    keys, a string its characters; nothing else can be iterated. *)
Definition py_iter (v : json) : result (list json) :=
  match v with
  | JArr l => Ok l
  | JObj d => Ok (map (fun kv => JStr (fst kv)) d)
  | JStr s => Ok (map (fun c => JStr (String c EmptyString)) (list_ascii_of_string s))
  | _ => Err (TypeError ("'" ++ type_name v ++ "' object is not iterable"))
  end.

(** [str(n)] for an integer. *)
Definition str_int (n : Z) : string := NilZero.string_of_int (Z.to_int n).

(** * Calendar and instants

    [datetime.datetime] values are naive instants; Python orders them as the
    tuples (year, month, day, hour, minute, second, microsecond). *)
Record datetime : Type := mkdt {
  year : Z; month : Z; day : Z;
  hour : Z; minute : Z; second : Z; microsecond : Z }.

Definition dt_fields (t : datetime) : list Z :=
  [year t; month t; day t; hour t; minute t; second t; microsecond t].

Fixpoint lex_cmp (a b : list Z) : comparison :=
  match a, b with
  | [], [] => Eq
  | [], _ :: _ => Lt
  | _ :: _, [] => Gt
  | x :: a', y :: b' =>
      match Z.compare x y with
      | Eq => lex_cmp a' b'
      | c => c
      end
  end.

Definition dt_cmp (a b : datetime) : comparison := lex_cmp (dt_fields a) (dt_fields b).

(** [a <= b] on instants. *)
Definition dt_leb (a b : datetime) : bool :=
  match dt_cmp a b with
  | Gt => false
  | _ => true
  end.

Definition MINYEAR : Z := 1.
Definition MAXYEAR : Z := 9999.
Definition MAXORDINAL : Z := 3652059.

Definition is_leap (y : Z) : bool :=
  (y mod 4 =? 0) && (negb (y mod 100 =? 0) || (y mod 400 =? 0)).

Definition DAYS_IN_MONTH : list Z := [-1; 31; 28; 31; 30; 31; 30; 31; 31; 30; 31; 30; 31].
Definition DAYS_BEFORE_MONTH : list Z := [-1; 0; 31; 59; 90; 120; 151; 181; 212; 243; 273; 304; 334].

Definition days_in_month (y m : Z) : Z :=
  if (m =? 2) && is_leap y then 29 else nth (Z.to_nat m) DAYS_IN_MONTH 0.

Definition days_before_year (y : Z) : Z :=
  let y := y - 1 in y * 365 + y / 4 - y / 100 + y / 400.

Definition days_before_month (y m : Z) : Z :=
  nth (Z.to_nat m) DAYS_BEFORE_MONTH 0 + (if (2 <? m) && is_leap y then 1 else 0).

Definition ymd2ord (y m d : Z) : Z :=
  days_before_year y + days_before_month y m + d.

Definition DI400Y : Z := 146097.
Definition DI100Y : Z := 36524.
Definition DI4Y : Z := 1461.

(** The date of the proleptic Gregorian ordinal [n] (1 is 0001-01-01). *)
Definition ord2ymd (n : Z) : Z * Z * Z :=
  let n := n - 1 in
  let n400 := n / DI400Y in
  let n := n mod DI400Y in
  let y := n400 * 400 + 1 in
  let n100 := n / DI100Y in
  let n := n mod DI100Y in
  let n4 := n / DI4Y in
  let n := n mod DI4Y in
  let n1 := n / 365 in
  let n := n mod 365 in
  let y := y + n100 * 100 + n4 * 4 + n1 in
  if (n1 =? 4) || (n100 =? 4) then (y - 1, 12, 31)
  else
    let leapyear := (n1 =? 3) && (negb (n4 =? 24) || (n100 =? 3)) in
    let m := Z.shiftr (n + 50) 5 in
    let preceding :=
      nth (Z.to_nat m) DAYS_BEFORE_MONTH 0 + (if (2 <? m) && leapyear then 1 else 0) in
    if n <? preceding then
      let m := m - 1 in
      let preceding :=
        preceding - (nth (Z.to_nat m) DAYS_IN_MONTH 0 + (if (m =? 2) && leapyear then 1 else 0)) in
      (y, m, n - preceding + 1)
    else (y, m, n - preceding + 1).

(** The checks of the [datetime] constructor. *)
Definition datetime_new (y m d hh mm ss us : Z) : result datetime :=
  if negb ((MINYEAR <=? y) && (y <=? MAXYEAR)) then Err (ValueError "year is out of range")
  else if negb ((1 <=? m) && (m <=? 12)) then Err (ValueError "month must be in 1..12")
  else if negb ((1 <=? d) && (d <=? days_in_month y m)) then
    Err (ValueError "day is out of range for month")
  else if negb ((0 <=? hh) && (hh <=? 23)) then Err (ValueError "hour must be in 0..23")
  else if negb ((0 <=? mm) && (mm <=? 59)) then Err (ValueError "minute must be in 0..59")
  else if negb ((0 <=? ss) && (ss <=? 59)) then Err (ValueError "second must be in 0..59")
  else if negb ((0 <=? us) && (us <=? 999999)) then
    Err (ValueError "microsecond must be in 0..999999")
  else Ok (mkdt y m d hh mm ss us).

(** [t - datetime.timedelta(days=d)]: the time of day is kept and the date
    moves by whole days; [timedelta] holds at most 999999999 days and the
    result must stay within years 1..9999. *)
Definition sub_days (t : datetime) (d : Z) : result datetime :=
  if 999999999 <? Z.abs d then
    Err (OverflowError "days out of range for timedelta")
  else
    let o := ymd2ord (year t) (month t) (day t) - d in
    if (0 <? o) && (o <=? MAXORDINAL) then
      let '(y, m, dd) := ord2ymd o in
      Ok (mkdt y m dd (hour t) (minute t) (second t) (microsecond t))
    else Err (OverflowError "date value out of range").

(** * The Date Normalizer

    [datetime.strptime(s, "%Y-%m-%dT%H:%M:%SZ")] turns its format into a
    regular expression, one group of alternatives per directive, and matches
    it at the start of [s], ignoring case, by backtracking. *)
Definition cls : Type := ascii -> bool.

Definition in_range (lo hi : ascii) : cls :=
  fun c => (nat_of_ascii lo <=? nat_of_ascii c)%nat && (nat_of_ascii c <=? nat_of_ascii hi)%nat.

Definition is_digit : cls := in_range "0" "9".
Definition lit (a : ascii) : cls := Ascii.eqb a.
(** A letter of the format under [re.IGNORECASE]. *)
Definition lit_nocase (upper lower : ascii) : cls :=
  fun c => Ascii.eqb upper c || Ascii.eqb lower c.

Inductive item : Type :=
| Lit (c : cls)
| Group (alts : list (list cls)).

(** One alternative is a fixed run of character classes. *)
Fixpoint match_seq (cs : list cls) (s : list ascii) : option (list ascii * list ascii) :=
  match cs with
  | [] => Some ([], s)
  | c :: cs' =>
      match s with
      | a :: s' =>
          if c a then
            match match_seq cs' s' with
            | Some (txt, rest) => Some (a :: txt, rest)
            | None => None
            end
          else None
      | [] => None
      end
  end.

(** The first alternative that matches and lets the rest of the expression
    match too. *)
Fixpoint try_alts {A : Type} (alts : list (list cls)) (s : list ascii)
    (k : list ascii -> list ascii -> option A) : option A :=
  match alts with
  | [] => None
  | a :: alts' =>
      match match_seq a s with
      | Some (txt, rest) =>
          match k txt rest with
          | Some r => Some r
          | None => try_alts alts' s k
          end
      | None => try_alts alts' s k
      end
  end.

(** The texts of the groups, in order, and what is left of the input. *)
Fixpoint re_match (p : list item) (s : list ascii) : option (list (list ascii) * list ascii) :=
  match p with
  | [] => Some ([], s)
  | Lit c :: p' =>
      match s with
      | a :: s' => if c a then re_match p' s' else None
      | [] => None
      end
  | Group alts :: p' =>
      try_alts alts s (fun txt rest =>
        match re_match p' rest with
        | Some (gs, r) => Some (txt :: gs, r)
        | None => None
        end)
  end.

Definition d09 : cls := is_digit.
(** %Y is \d\d\d\d *)
Definition re_Y : list (list cls) := [[d09; d09; d09; d09]].
(** %m is 1[0-2]|0[1-9]|[1-9] *)
Definition re_m : list (list cls) :=
  [[lit "1"; in_range "0" "2"]; [lit "0"; in_range "1" "9"]; [in_range "1" "9"]].
(** %d is 3[0-1]|[1-2]\d|0[1-9]|[1-9]| [1-9] *)
Definition re_d : list (list cls) :=
  [[lit "3"; in_range "0" "1"]; [in_range "1" "2"; d09]; [lit "0"; in_range "1" "9"];
   [in_range "1" "9"]; [lit " "; in_range "1" "9"]].
(** %H is 2[0-3]|[0-1]\d|\d *)
Definition re_H : list (list cls) :=
  [[lit "2"; in_range "0" "3"]; [in_range "0" "1"; d09]; [d09]].
(** %M is [0-5]\d|\d *)
Definition re_M : list (list cls) := [[in_range "0" "5"; d09]; [d09]].
(** %S is 6[0-1]|[0-5]\d|\d *)
Definition re_S : list (list cls) :=
  [[lit "6"; in_range "0" "1"]; [in_range "0" "5"; d09]; [d09]].

Definition iso_regex : list item :=
  [Group re_Y; Lit (lit "-"); Group re_m; Lit (lit "-"); Group re_d;
   Lit (lit_nocase "T" "t");
   Group re_H; Lit (lit ":"); Group re_M; Lit (lit ":"); Group re_S;
   Lit (lit_nocase "Z" "z")].

Definition digit_val (c : ascii) : Z := Z.of_nat (nat_of_ascii c) - 48.
Definition digit_char (v : Z) : ascii := ascii_of_nat (Z.to_nat (48 + v)).

(** [int(text)] on the text of a group: decimal digits, after the blank that
    %d admits in front of a one-digit day. *)
Definition int_of_text (txt : list ascii) : Z :=
  fold_left (fun acc c => if is_digit c then acc * 10 + digit_val c else acc) txt 0.

Definition strptime_iso (s : string) : result datetime :=
  match re_match iso_regex (list_ascii_of_string s) with
  | Some ([tY; tm; td; tH; tM; tS], rest) =>
      match rest with
      | [] =>
          datetime_new (int_of_text tY) (int_of_text tm) (int_of_text td)
                       (int_of_text tH) (int_of_text tM) (int_of_text tS) 0
      | _ :: _ => Err (ValueError ("unconverted data remains: " ++ string_of_list_ascii rest))
      end
  | _ => Err (ValueError ("time data '" ++ s ++ "' does not match format '%Y-%m-%dT%H:%M:%SZ'"))
  end.

(** [convert_string_to_iso_date(date_string)]; [strptime] wants a [str]. *)
Definition convert_string_to_iso_date (date_string : json) : result datetime :=
  match date_string with
  | JStr s => strptime_iso s
  | v => Err (TypeError ("strptime() argument 1 must be str, not " ++ type_name v))
  end.

(** Modelled from the spec: the re-formatting of an instant back to the
    pattern YYYY-MM-DDTHH:MM:SSZ, which the program itself never does: four
    digits of year and two of every other field, zero-padded, between the
    separators of the pattern. *)
Fixpoint digits_fixed (w : nat) (n : Z) : list ascii :=
  match w with
  | O => []
  | S w' => digits_fixed w' (n / 10) ++ [digit_char (n mod 10)]
  end.

Definition format_iso_date (t : datetime) : string :=
  string_of_list_ascii
    (digits_fixed 4 (year t) ++ ["-"%char] ++ digits_fixed 2 (month t) ++ ["-"%char] ++
     digits_fixed 2 (day t) ++ ["T"%char] ++ digits_fixed 2 (hour t) ++ [":"%char] ++
     digits_fixed 2 (minute t) ++ [":"%char] ++ digits_fixed 2 (second t) ++ ["Z"%char]).

(** Modelled from the spec: a string "matches the fixed pattern
    YYYY-MM-DDTHH:MM:SSZ" when it has these twenty characters, a decimal
    digit at every letter of the pattern; [iso_fields] gives the six numbers
    such a string writes. *)
Definition iso_fields (s : string) : option (Z * Z * Z * Z * Z * Z) :=
  match list_ascii_of_string s with
  | [y1; y2; y3; y4; c1; m1; m2; c2; d1; d2; c3; h1; h2; c4; n1; n2; c5; s1; s2; c6] =>
      if forallb is_digit [y1; y2; y3; y4; m1; m2; d1; d2; h1; h2; n1; n2; s1; s2]
         && Ascii.eqb c1 "-" && Ascii.eqb c2 "-" && Ascii.eqb c3 "T"
         && Ascii.eqb c4 ":" && Ascii.eqb c5 ":" && Ascii.eqb c6 "Z"
      then Some (int_of_text [y1; y2; y3; y4], int_of_text [m1; m2], int_of_text [d1; d2],
                 int_of_text [h1; h2], int_of_text [n1; n2], int_of_text [s1; s2])
      else None
  | _ => None
  end.

Definition matches_iso_pattern (s : string) : bool :=
  match iso_fields s with
  | Some _ => true
  | None => false
  end.

(** * The world the program runs in *)

Definition nl : string := String "010" EmptyString.
Definition tab : string := String "009" EmptyString.
Definition dquote : string := String "034" EmptyString.

(** [str(t)] for an instant: ISO layout with a blank between date and time,
    the microseconds shown when they are not zero. *)
Definition str_datetime (t : datetime) : string :=
  string_of_list_ascii
    (digits_fixed 4 (year t) ++ ["-"%char] ++ digits_fixed 2 (month t) ++ ["-"%char] ++
     digits_fixed 2 (day t) ++ [" "%char] ++ digits_fixed 2 (hour t) ++ [":"%char] ++
     digits_fixed 2 (minute t) ++ [":"%char] ++ digits_fixed 2 (second t) ++
     (if microsecond t =? 0 then [] else "."%char :: digits_fixed 6 (microsecond t))).

Record request : Type := mkRequest {
  q_url : string;
  q_params : list (string * string);
  q_auth : string * string }.

(** What the program looks at in a [requests.Response]: the status code, the
    URL the response reports, the outcome of [.json()] and the URL of the
    "next" entry of [.links], when there is one. *)
Record response : Type := mkResponse {
  r_status : Z;
  r_url : string;
  r_json : result json;
  r_next : option string }.

(** [Response.ok]: [raise_for_status] complains about 400..599. *)
Definition r_ok (r : response) : bool :=
  negb ((400 <=? r_status r) && (r_status r <? 600)).

(** The server is a script: the answers it will give to the successive
    requests, each a response or the exception [requests.get] raises.  The
    clock gives the readings of the successive calls of [datetime.now()].
    [w_log] holds the pieces written to error.log, oldest first, and [w_out]
    the pieces written to standard output. *)
Record world : Type := mkWorld {
  w_clock : nat -> datetime;
  w_ticks : nat;
  w_log : list string;
  w_out : list string;
  w_net : list (result response);
  w_sent : list request;
  w_typed : list string }.

Definition set_ticks (n : nat) (w : world) : world :=
  mkWorld (w_clock w) n (w_log w) (w_out w) (w_net w) (w_sent w) (w_typed w).
Definition set_log (l : list string) (w : world) : world :=
  mkWorld (w_clock w) (w_ticks w) l (w_out w) (w_net w) (w_sent w) (w_typed w).
Definition set_out (o : list string) (w : world) : world :=
  mkWorld (w_clock w) (w_ticks w) (w_log w) o (w_net w) (w_sent w) (w_typed w).
Definition set_net (n : list (result response)) (q : list request) (w : world) : world :=
  mkWorld (w_clock w) (w_ticks w) (w_log w) (w_out w) n q (w_typed w).
Definition set_typed (t : list string) (w : world) : world :=
  mkWorld (w_clock w) (w_ticks w) (w_log w) (w_out w) (w_net w) (w_sent w) t.

(** How a call ends: it returns, an exception leaves it, or [sys.exit]
    ends the process ([SystemExit] is not an [Exception], so no handler of
    the program stops it). *)
Inductive outcome (A : Type) : Type :=
| Ret (a : A)
| Raise (e : exn)
| Exit (code : Z).
Arguments Ret {A} a.
Arguments Raise {A} e.
Arguments Exit {A} code.

Definition M (A : Type) : Type := world -> outcome A * world.

Definition ret {A} (a : A) : M A := fun w => (Ret a, w).
Definition raise {A} (e : exn) : M A := fun w => (Raise e, w).
Definition sys_exit {A} (code : Z) : M A := fun w => (Exit code, w).

Definition bind {A B} (m : M A) (f : A -> M B) : M B :=
  fun w =>
    match m w with
    | (Ret a, w') => f a w'
    | (Raise e, w') => (Raise e, w')
    | (Exit c, w') => (Exit c, w')
    end.

Definition lift {A} (r : result A) : M A :=
  match r with
  | Ok a => ret a
  | Err e => raise e
  end.

Declare Scope M_scope.
Delimit Scope M_scope with M.
Notation "x <- m ;; k" := (bind m (fun x => k))
  (at level 61, m at next level, right associativity) : M_scope.
Notation "m ;; k" := (bind m (fun _ => k))
  (at level 61, right associativity) : M_scope.
Local Open Scope M_scope.

(** [datetime.datetime.now()]. *)
Definition datetime_now : M datetime :=
  fun w => (Ret (w_clock w (w_ticks w)), set_ticks (S (w_ticks w)) w).

(** [print(text)]. *)
Definition print (text : string) : M unit :=
  fun w => (Ret tt, set_out (w_out w ++ [text ++ nl]) w).

(** [open('error.log', 'a')] and one [write]. *)
Definition log_append (text : string) : M unit :=
  fun w => (Ret tt, set_log (w_log w ++ [text]) w).

(** [open('error.log', 'w')] and one [write]: what the file held is gone. *)
Definition log_overwrite (text : string) : M unit :=
  fun w => (Ret tt, set_log [text] w).

(** [requests.get(url, params=..., auth=...)]. *)
Definition requests_get (url : string) (params : list (string * string))
    (auth : string * string) : M response :=
  fun w =>
    let sent := (w_sent w ++ [mkRequest url params auth])%list in
    match w_net w with
    | [] => (Raise (ConnectionError "no answer"), set_net [] sent w)
    | Ok r :: net' => (Ret r, set_net net' sent w)
    | Err e :: net' => (Raise e, set_net net' sent w)
    end.

(** [input(prompt)], and [getpass.getpass] which shows its prompt on the
    terminal, not on standard output. *)
Definition input (prompt : string) : M string :=
  fun w =>
    let w1 := set_out (w_out w ++ [prompt]) w in
    match w_typed w with
    | [] => (Raise (EOFError "EOF when reading a line"), w1)
    | l :: rest => (Ret l, set_typed rest w1)
    end.

Definition getpass : M string :=
  fun w =>
    match w_typed w with
    | [] => (Raise (EOFError "EOF when reading a line"), w)
    | l :: rest => (Ret l, set_typed rest w)
    end.

(** [write_log(event)] *)
Definition write_log (event : string) : M unit :=
  now <- datetime_now ;;
  log_append (str_datetime now ++ ": " ++ tab ++ " " ++ event).

(** * Text helpers of the program *)

(** [s.split(sep)] for a one-character separator. *)
Fixpoint split_on (sep : ascii) (s : list ascii) : list (list ascii) :=
  match s with
  | [] => [[]]
  | c :: s' =>
      if Ascii.eqb c sep then [] :: split_on sep s'
      else
        match split_on sep s' with
        | h :: t => (c :: h) :: t
        | [] => [[c]]
        end
  end.

Definition split (sep : ascii) (s : string) : list string :=
  map string_of_list_ascii (split_on sep (list_ascii_of_string s)).

(** [l[-n:]] *)
Definition lastn {A} (n : nat) (l : list A) : list A := skipn (List.length l - n) l.

Fixpoint join (sep : string) (l : list string) : string :=
  match l with
  | [] => ""
  | [x] => x
  | x :: l' => x ++ sep ++ join sep l'
  end.

(** [repr(v)], [str(v)]; quotes and escapes inside strings are not
    modelled. *)
Fixpoint py_repr (v : json) : string :=
  match v with
  | JNull => "None"
  | JBool true => "True"
  | JBool false => "False"
  | JInt n => str_int n
  | JStr s => "'" ++ s ++ "'"
  | JArr l => "[" ++ join ", " (map py_repr l) ++ "]"
  | JObj d =>
      "{" ++ join ", " (map (fun kv => let '(k, x) := kv in "'" ++ k ++ "': " ++ py_repr x) d) ++ "}"
  end.

Definition py_str (v : json) : string :=
  match v with
  | JStr s => s
  | _ => py_repr v
  end.

Definition spaces (n : nat) : string := string_of_list_ascii (repeat " "%char n).

(** [format(s, '^20')] *)
Definition center (width : nat) (s : string) : string :=
  let pad := (width - String.length s)%nat in
  let left := (pad / 2)%nat in
  spaces left ++ s ++ spaces (pad - left).

(** [format(s, '>5')] *)
Definition rjust (width : nat) (s : string) : string :=
  spaces (width - String.length s) ++ s.

(** * Dictionary keys

    The values that can be keys of [dct_authors]: [True] and [1] are the same
    key, a list or a dict is not hashable. *)
Inductive py_key : Type :=
| KNone
| KInt (n : Z)
| KStr (s : string).

Definition key_eqb (a b : py_key) : bool :=
  match a, b with
  | KNone, KNone => true
  | KInt x, KInt y => x =? y
  | KStr x, KStr y => String.eqb x y
  | _, _ => false
  end.

Definition key_of (v : json) : result py_key :=
  match v with
  | JNull => Ok KNone
  | JBool b => Ok (KInt (if b then 1 else 0))
  | JInt n => Ok (KInt n)
  | JStr s => Ok (KStr s)
  | _ => Err (TypeError ("unhashable type: '" ++ type_name v ++ "'"))
  end.

(** ['{:^20}|{:>5}'.format(key, count)] *)
Definition format_row (k : py_key) (count : Z) : result string :=
  match k with
  | KNone => Err (TypeError "unsupported format string passed to NoneType.__format__")
  | KInt n => Ok (center 20 (str_int n) ++ "|" ++ rjust 5 (str_int count))
  | KStr s => Ok (center 20 s ++ "|" ++ rjust 5 (str_int count))
  end.

(** [Counter(d).most_common(n)]: the items by descending count, items of
    equal count in the order of the dictionary, cut after [n]. *)
Fixpoint insert_desc {K} (x : K * Z) (l : list (K * Z)) : list (K * Z) :=
  match l with
  | [] => [x]
  | y :: l' => if snd y <=? snd x then x :: y :: l' else y :: insert_desc x l'
  end.

Fixpoint sort_desc {K} (l : list (K * Z)) : list (K * Z) :=
  match l with
  | [] => []
  | x :: l' => insert_desc x (sort_desc l')
  end.

Definition most_common {K} (n : Z) (d : list (K * Z)) : list (K * Z) :=
  firstn (Z.to_nat n) (sort_desc d).

(** * The program *)

(** The list comprehension of both window filters:
    [[row for row in rows if begin <= convert_string_to_iso_date(stamp(row)) <= end]].
    It stands outside every [try]: the first row whose timestamp cannot be
    read ends the whole aggregation with that exception. *)
Fixpoint window_filter (stamp : json -> result json) (rows : list json)
    (begin end_ : datetime) : result (list json) :=
  match rows with
  | [] => Ok []
  | row :: rows' =>
      (v <- stamp row ;;
       t <- convert_string_to_iso_date v ;;
       kept <- window_filter stamp rows' begin end_ ;;
       Ok (if dt_leb begin t && dt_leb t end_ then row :: kept else kept))%result
  end.

(** [row['commit']['author']['date']] *)
Definition author_date (row : json) : result json :=
  (c <- subscript row "commit" ;; a <- subscript c "author" ;; subscript a "date")%result.

(** [row['created_at']] *)
Definition created_at (row : json) : result json := subscript row "created_at".

(** [commit['author']['login']] as a key of [dct_authors]. *)
Definition author_login (commit : json) : result py_key :=
  (a <- subscript commit "author" ;; l <- subscript a "login" ;; key_of l)%result.

(** One turn of the counting loop of [get_top_authors], without its handler. *)
Definition tally_one (k : py_key) (dct_authors : list (py_key * Z)) : list (py_key * Z) :=
  match dict_get key_eqb k dct_authors with
  | None => dict_set key_eqb k 1 dct_authors
  | Some c => dict_set key_eqb k (c + 1) dct_authors
  end.

Fixpoint tally_authors (commits : list json) (dct_authors : list (py_key * Z))
    : M (list (py_key * Z)) :=
  match commits with
  | [] => ret dct_authors
  | commit :: rest =>
      match author_login commit with
      | Ok k => tally_authors rest (tally_one k dct_authors)
      | Err e =>
          now <- datetime_now ;;
          write_log (str_datetime now ++ ": " ++ str_exn e) ;;
          tally_authors rest dct_authors
      end
  end.

Fixpoint print_rows (top_authors : list (py_key * Z)) : M unit :=
  match top_authors with
  | [] => ret tt
  | author :: rest =>
      line <- lift (format_row (fst author) (snd author)) ;;
      print line ;;
      print_rows rest
  end.

Definition table_header : string := center 20 "Login" ++ "|" ++ rjust 5 "Commits".
Definition table_rule : string := string_of_list_ascii (repeat "_"%char 30).

(** [get_top_authors(data, begin, end, top_count)].  The function has no
    [return] with a value: [None] is what a caller gets on every path. *)
Definition get_top_authors (data : json) (begin end_ : datetime) (top_count : Z)
    : M (option (list (py_key * Z))) :=
  rows <- lift (py_iter data) ;;
  commits <- lift (window_filter author_date rows begin end_) ;;
  if negb (existsb (fun row => py_eq_str row "message") commits) then
    dct_authors <- tally_authors commits [] ;;
    let top_authors := most_common top_count dct_authors in
    print table_header ;;
    print table_rule ;;
    print_rows top_authors ;;
    ret None
  else
    message <- lift (subscript (JArr commits) "message") ;;
    if py_eq_str message "Not Found" then
      print "Authors not found" ;;
      ret None
    else
      write_log (py_str message) ;;
      ret None.

(** [count_dct[key] += 1] *)
Definition dict_bump (key : string) (count_dct : list (string * Z)) : result (list (string * Z)) :=
  match dict_get String.eqb key count_dct with
  | Some c => Ok (dict_set String.eqb key (c + 1) count_dct)
  | None => Err (KeyError key)
  end.

(** The body of the [try] of [get_count] for one row. *)
Definition count_one (row : json) (count_dct : list (string * Z)) : result (list (string * Z)) :=
  (st <- subscript row "state" ;;
   if py_eq_str st "open" then dict_bump "open" count_dct
   else if py_eq_str st "closed" then dict_bump "closed" count_dct
   else Ok count_dct)%result.

Fixpoint count_states (data : list json) (count_dct : list (string * Z))
    : M (list (string * Z)) :=
  match data with
  | [] => ret count_dct
  | row :: rest =>
      match count_one row count_dct with
      | Ok count_dct' => count_states rest count_dct'
      | Err e =>
          log_overwrite (str_exn e) ;;
          count_states rest count_dct
      end
  end.

(** [get_count(raw_data, begin, end)] *)
Definition get_count (raw_data : json) (begin end_ : datetime) : M (list (string * Z)) :=
  rows <- lift (py_iter raw_data) ;;
  data <- lift (window_filter created_at rows begin end_) ;;
  count_states data [("open", 0); ("closed", 0)].

(** The loop of [get_count_old]; what it raises is caught around the whole
    loop. *)
Fixpoint count_old_loop (now : datetime) (days_to_old : Z) (rows : list json)
    (count_old : Z) : result Z :=
  match rows with
  | [] => Ok count_old
  | row :: rest =>
      (v <- created_at row ;;
       t <- convert_string_to_iso_date v ;;
       limit <- sub_days now days_to_old ;;
       if dt_leb t limit then
         st <- subscript row "state" ;;
         if py_eq_str st "open" then count_old_loop now days_to_old rest (count_old + 1)
         else count_old_loop now days_to_old rest count_old
       else count_old_loop now days_to_old rest count_old)%result
  end.

(** The loop of [get_data]: while the last response names a next page, ask
    for it and extend [data] by what its body decodes to.  No status is
    looked at here.  The loop only uses the server, so it is written over the
    script and the record of requests. *)
Fixpoint follow_links (net : list (result response)) (sent : list request)
    (req_params : list (string * string)) (auth : string * string)
    (res : response) (data : json)
    : outcome json * (list (result response) * list request) :=
  match r_next res with
  | None => (Ret data, (net, sent))
  | Some next_url =>
      let sent' := (sent ++ [mkRequest next_url req_params auth])%list in
      match net with
      | [] => (Raise (ConnectionError "no answer"), ([], sent'))
      | Err e :: net' => (Raise e, (net', sent'))
      | Ok res' :: net' =>
          match data with
          | JArr l =>
              match (page <- r_json res' ;; py_iter page)%result with
              | Ok items => follow_links net' sent' req_params auth res' (JArr (l ++ items))
              | Err e => (Raise e, (net', sent'))
              end
          | _ =>
              (Raise (AttributeError ("'" ++ type_name data ++ "' object has no attribute 'extend'")),
               (net', sent'))
          end
      end
  end.

(** [get_data(url, branch, username, password)] *)
Definition get_data (url branch username password : string) : M json :=
  let obj := lastn 1 (split "/" url) in
  let obj0 := hd "" obj in
  let req_params := [] in
  let req_params := if String.eqb obj0 "commits" then [("state", "all"); ("sha", branch)] else req_params in
  let req_params := if String.eqb obj0 "pulls" then [("state", "all"); ("base", branch)] else req_params in
  let req_params := if String.eqb obj0 "issues" then [("state", "all")] else req_params in
  res <- requests_get url req_params (username, password) ;;
  if r_ok res then
    data <- lift (r_json res) ;;
    fun w =>
      let '(o, (net, sent)) :=
        follow_links (w_net w) (w_sent w) req_params (username, password) res data in
      (o, set_net net sent w)
  else
    print "Getting data by URL failed. See error.log" ;;
    write_log (r_url res ++ ": " ++ str_int (r_status res) ++ nl) ;;
    sys_exit 1.

Section Program.

(** The text [traceback.format_exc()] gives for an exception being
    handled; it names files and lines and is left open. *)
Variable format_exc : exn -> string.

(** [get_count_old(data, days_to_old)]: a count, or [None] after any
    exception. *)
Definition get_count_old (data : json) (days_to_old : Z) : M (option Z) :=
  now <- datetime_now ;;
  match (rows <- py_iter data ;; count_old_loop now days_to_old rows 0)%result with
  | Ok count_old => ret (Some count_old)
  | Err e =>
      write_log (format_exc e) ;;
      ret None
  end.

Definition str_option_int (v : option Z) : string :=
  match v with
  | Some n => str_int n
  | None => "None"
  end.

Definition repr_key (k : py_key) : string :=
  match k with
  | KNone => "None"
  | KInt n => str_int n
  | KStr s => "'" ++ s ++ "'"
  end.

Definition str_option_pairs (v : option (list (py_key * Z))) : string :=
  match v with
  | Some l =>
      "[" ++ join ", " (map (fun kc => "(" ++ repr_key (fst kc) ++ ", " ++ str_int (snd kc) ++ ")") l)
      ++ "]"
  | None => "None"
  end.

Fixpoint print_counts (what : string) (items : list (string * Z)) : M unit :=
  match items with
  | [] => ret tt
  | (k, v) :: rest =>
      print ("Count " ++ what ++ " in state " ++ dquote ++ k ++ dquote ++ ": " ++ str_int v) ;;
      print_counts what rest
  end.

(** [get_stat_repo(url, date_begin, date_end, branch)] *)
Definition get_stat_repo (url date_begin date_end branch : string) : M unit :=
  let url_repo := lastn 2 (split "/" url) in
  date_begin <- lift (convert_string_to_iso_date (JStr date_begin)) ;;
  date_end <- lift (convert_string_to_iso_date (JStr date_end)) ;;
  url_repo_api <-
    match url_repo with
    | r0 :: r1 :: _ => ret ("https://api.github.com/repos/" ++ r0 ++ "/" ++ r1)
    | _ =>
        print ("Incorrect URL of repo " ++ url ++ ". See error.log") ;;
        write_log ("Incorrect URL of repo " ++ url ++ "." ++ nl) ;;
        sys_exit 1
    end ;;
  username <- input "Github login: " ;;
  password <- getpass ;;
  data_commits <- get_data (url_repo_api ++ "/commits") branch username password ;;
  top <- get_top_authors data_commits date_begin date_end 30 ;;
  print (str_option_pairs top) ;;
  data_pulls <- get_data (url_repo_api ++ "/pulls") branch username password ;;
  count_pulls <- get_count data_pulls date_begin date_end ;;
  print_counts "pulls" count_pulls ;;
  old_pulls <- get_count_old data_pulls 30 ;;
  print ("Count of old pulls: " ++ str_option_int old_pulls) ;;
  data_issues <- get_data (url_repo_api ++ "/issues") branch username password ;;
  count_issues <- get_count data_issues date_begin date_end ;;
  print_counts "issues" count_issues ;;
  old_issues <- get_count_old data_issues 14 ;;
  print ("Count of old issues: " ++ str_option_int old_issues).

(** The body under [if __name__ == '__main__'], after the arguments are
    parsed. *)
Definition main (url date_begin date_end branch : string) : M unit :=
  fun w =>
    match get_stat_repo url date_begin date_end branch w with
    | (Raise e, w') =>
        (write_log (format_exc e) ;;
         print "An error has occurred. Details in the log file error.log" ;;
         sys_exit 1) w'
    | other => other
    end.

End Program.

(** * Sample data *)

Definition T0 : string := "2020-06-01T12:00:00Z".

(** A commit record as the API sends it, cut down to what the program reads. *)
Definition commit_by (login date : string) : json :=
  JObj [("commit", JObj [("author", JObj [("date", JStr date)])]);
        ("author", JObj [("login", JStr login)])].

(** A pull request or issue record. *)
Definition item_in_state (state date : string) : json :=
  JObj [("created_at", JStr date); ("state", JStr state)].

Definition item_without_state (date : string) : json :=
  JObj [("created_at", JStr date)].

(** A world with an empty log, nothing printed, no answers scripted and a
    clock that starts on 2026-11-03 10:00:00.000005 and gains a second at
    every reading. *)
Definition w0 : world :=
  mkWorld (fun n => mkdt 2026 11 3 10 0 (Z.of_nat n) 5) 0 [] [] [] [] [].

Definition year_2020_begin : datetime := mkdt 2020 1 1 0 0 0 0.
Definition year_2020_end : datetime := mkdt 2020 12 31 23 59 59 0.

(** Five pull requests: open, closed, without a state and in a state of
    another name inside the year 2020, and an open one from 2019. *)
Definition sample_pulls : list json :=
  [item_in_state "open" T0; item_in_state "closed" T0; item_without_state T0;
   item_in_state "merged" T0; item_in_state "open" "2019-01-01T00:00:00Z"].

(** The three commits of the ranking example, all dated [date]. *)
Definition three_commits (date : string) : json :=
  JArr [commit_by "alice" date; commit_by "bob" date; commit_by "alice" date].

(** The error object the API sends for a repository it does not know. *)
Definition not_found_payload : json :=
  JObj [("message", JStr "Not Found");
        ("documentation_url", JStr "https://docs.github.com/rest")].

(** A stand-in for the text of a traceback. *)
Definition sample_format_exc (e : exn) : string := "Traceback: " ++ str_exn e.

(** * Auxiliary notions for the statements *)

(** Every alternative of a group takes one or two characters. *)
Definition short_alts (alts : list (list cls)) : bool :=
  forallb (fun alt => (List.length alt =? 1)%nat || (List.length alt =? 2)%nat) alts.

(** Some two-character alternative of the group takes [a] then [b]. *)
Definition accept2 (alts : list (list cls)) (a b : ascii) : bool :=
  existsb (fun alt => match alt with
                      | [c1; c2] => c1 a && c2 b
                      | _ => false
                      end) alts.

(** The instant a window filter reads from a row. *)
Definition row_time (stamp : json -> result json) (row : json) : result datetime :=
  (v <- stamp row ;; convert_string_to_iso_date v)%result.

(** [begin <= t <= end] *)
Definition in_window (begin end_ t : datetime) : bool := dt_leb begin t && dt_leb t end_.

Definition row_in_window (stamp : json -> result json) (begin end_ : datetime)
    (row : json) : bool :=
  match row_time stamp row with
  | Ok t => in_window begin end_ t
  | Err _ => false
  end.

(** How many elements of a list pass a test. *)
Fixpoint count_where {A} (f : A -> bool) (l : list A) : Z :=
  match l with
  | [] => 0
  | x :: l' => (if f x then 1 else 0) + count_where f l'
  end.

(** [row['state'] == s], false when the row has no state. *)
Definition state_is (s : string) (row : json) : bool :=
  match subscript row "state" with
  | Ok st => py_eq_str st s
  | Err _ => false
  end.

(** [row['state']] raises. *)
Definition state_missing (row : json) : bool :=
  match subscript row "state" with
  | Ok _ => false
  | Err _ => true
  end.

(** The state is absent or is neither [open] nor [closed]. *)
Definition state_unexpected (row : json) : bool :=
  negb (state_is "open" row || state_is "closed" row).

(** What error.log holds after the State Counter has gone through [data]:
    every row without a state replaces the content by the text of its
    exception. *)
Fixpoint log_after_count (data : list json) (log : list string) : list string :=
  match data with
  | [] => log
  | row :: rest =>
      match subscript row "state" with
      | Ok _ => log_after_count rest log
      | Err e => log_after_count rest [str_exn e]
      end
  end.

(** The author tally over the commits whose login can be read. *)
Fixpoint pure_tally (commits : list json) (dct : list (py_key * Z)) : list (py_key * Z) :=
  match commits with
  | [] => dct
  | commit :: rest =>
      match author_login commit with
      | Ok k => pure_tally rest (tally_one k dct)
      | Err _ => pure_tally rest dct
      end
  end.

Definition login_readable (commit : json) : bool :=
  match author_login commit with
  | Ok _ => true
  | Err _ => false
  end.

(** The entries the counting loop of [get_top_authors] appends to error.log
    when the clock has been read [ticks] times: one for every commit whose
    login cannot be read, each after two readings of the clock. *)
Fixpoint tally_entries (clock : nat -> datetime) (ticks : nat) (commits : list json)
    : list string :=
  match commits with
  | [] => []
  | commit :: rest =>
      match author_login commit with
      | Ok _ => tally_entries clock ticks rest
      | Err e =>
          (str_datetime (clock (S ticks)) ++ ": " ++ tab ++ " "
           ++ (str_datetime (clock ticks) ++ ": " ++ str_exn e))
          :: tally_entries clock (S (S ticks)) rest
      end
  end.

(** The lines [print_rows] writes, and how it ends. *)
Fixpoint printed_rows (top_authors : list (py_key * Z)) : list string * result unit :=
  match top_authors with
  | [] => ([], Ok tt)
  | author :: rest =>
      match format_row (fst author) (snd author) with
      | Ok line => let '(ls, r) := printed_rows rest in ((line ++ nl) :: ls, r)
      | Err e => ([], Err e)
      end
  end.

(** A call only ever adds to error.log. *)
Definition appends_only {A} (m : M A) : Prop :=
  forall w, exists added, w_log (snd (m w)) = (w_log w ++ added)%list.

(** A key that ['{:^20}'.format] can write. *)
Definition key_printable (k : py_key) : bool :=
  match k with
  | KNone => false
  | _ => true
  end.

(** A commit without author, as the API sends it when the author has no
    account. *)
Definition commit_without_author (date : string) : json :=
  JObj [("commit", JObj [("author", JObj [("date", JStr date)])]);
        ("author", JNull)].

(** The same answer of the server under another status code. *)
Definition with_status (g : response -> Z) (a : result response) : result response :=
  match a with
  | Ok r => Ok (mkResponse (g r) (r_url r) (r_json r) (r_next r))
  | Err e => Err e
  end.

(** A page of the API: its status, the link to the next page and its body. *)
Definition page (status : Z) (next : option string) (body : json) : result response :=
  Ok (mkResponse status "https://api.github.com/repos/a/b/pulls?state=all&base=master"
        (Ok body) next).

(** The integers [lo], [lo + 1], ... , [lo + n - 1]. *)
Definition zrange (lo : Z) (n : nat) : list Z := map (fun i => lo + Z.of_nat i) (seq 0 n).

(** The ordinal of a date names the date again and lies within the first
    400 years, a year short of their end for a year before the last. *)
Definition check_date (y m d : Z) : bool :=
  let o := ymd2ord y m d in
  let '(y', m', d') := ord2ymd o in
  (y' =? y) && (m' =? m) && (d' =? d) && (0 <? o) && (o <=? DI400Y)
  && ((400 <=? y) || (o <=? DI400Y - 366)).

(** An instant the [datetime] constructor accepts. *)
Definition valid_datetime (t : datetime) : Prop :=
  datetime_new (year t) (month t) (day t) (hour t) (minute t) (second t) (microsecond t)
  = Ok t.

(** A pull request or issue with a creation timestamp the normalizer
    accepts and with a state. *)
Definition well_formed_item (row : json) : Prop :=
  (exists t, row_time created_at row = Ok t) /\ state_missing row = false.

(** Open, and created at [limit] or before. *)
Definition is_stale (limit : datetime) (row : json) : bool :=
  match row_time created_at row with
  | Ok t => dt_leb t limit && state_is "open" row
  | Err _ => false
  end.

(** The query parameters [get_data] chooses from the last segment of the
    URL (lines 66-73). *)
Definition request_params (url branch : string) : list (string * string) :=
  let obj0 := hd "" (lastn 1 (split "/" url)) in
  let req_params := [] in
  let req_params := if String.eqb obj0 "commits" then [("state", "all"); ("sha", branch)] else req_params in
  let req_params := if String.eqb obj0 "pulls" then [("state", "all"); ("base", branch)] else req_params in
  let req_params := if String.eqb obj0 "issues" then [("state", "all")] else req_params in
  req_params.

(** What a page adds to the data: the items its decoded body iterates to. *)
Definition page_items (r : response) : result (list json) :=
  (body <- r_json r ;; py_iter body)%result.

(** The pages [rs] follow [res] link by link, and the last one names no
    next page. *)
Fixpoint linked_pages (res : response) (rs : list response) : bool :=
  match rs with
  | [] => match r_next res with None => true | Some _ => false end
  | r :: rs' => match r_next res with Some _ => linked_pages r rs' | None => false end
  end.

(** The items of all the pages, in order, when every body can be iterated. *)
Fixpoint pages_items (rs : list response) : option (list json) :=
  match rs with
  | [] => Some []
  | r :: rs' =>
      match page_items r, pages_items rs' with
      | Ok items, Some more => Some (items ++ more)%list
      | _, _ => None
      end
  end.

(** The requests that follow the links from [res] through [rs]. *)
Fixpoint link_requests (params : list (string * string)) (auth : string * string)
    (res : response) (rs : list response) : list request :=
  match rs with
  | [] => []
  | r :: rs' =>
      match r_next res with
      | Some next_url => mkRequest next_url params auth :: link_requests params auth r rs'
      | None => []
      end
  end.

(** The text holds no slash. *)
Definition no_slash (seg : string) : bool :=
  forallb (fun c => negb (Ascii.eqb c "/")) (list_ascii_of_string seg).

(** How many of the commits carry the login [k]. *)
Definition login_count (k : py_key) (commits : list json) : Z :=
  count_where (fun c => match author_login c with
                        | Ok k' => key_eqb k' k
                        | Err _ => false
                        end) commits.

(** A call can end the process with code 1 only. *)
Definition exits_with_1_only {A} (m : M A) : Prop :=
  forall w c, fst (m w) = Exit c -> c = 1.

(** Created at [limit] or before, and without a state: the one kind of
    record, among those with a readable creation timestamp, on which the
    loop of the Staleness Counter raises. *)
Definition old_without_state (limit : datetime) (row : json) : bool :=
  match row_time created_at row with
  | Ok t => dt_leb t limit && state_missing row
  | Err _ => false
  end.

(** * The Date Normalizer and the pattern *)

Lemma is_digit_cases (c : ascii) :
  is_digit c = true ->
  In c ["0"; "1"; "2"; "3"; "4"; "5"; "6"; "7"; "8"; "9"]%char.
Proof.
  destruct c as [b0 b1 b2 b3 b4 b5 b6 b7].
  destruct b0, b1, b2, b3, b4, b5, b6, b7; cbv; intro H;
    try discriminate H; tauto.
Qed.

Lemma digit_val_range (c : ascii) : is_digit c = true -> 0 <= digit_val c <= 9.
Proof.
  intro H. apply is_digit_cases in H. simpl in H.
  repeat (destruct H as [H | H]; [subst c; cbv; split; discriminate | ]).
  contradiction.
Qed.

Lemma digit_char_val (c : ascii) : is_digit c = true -> digit_char (digit_val c) = c.
Proof.
  intro H. apply is_digit_cases in H. simpl in H.
  repeat (destruct H as [H | H]; [subst c; reflexivity | ]).
  contradiction.
Qed.

Lemma int_of_text_snoc (ds : list ascii) (c : ascii) :
  is_digit c = true ->
  int_of_text (ds ++ [c]) = int_of_text ds * 10 + digit_val c.
Proof.
  intro H. unfold int_of_text. rewrite fold_left_app. simpl. now rewrite H.
Qed.

(** Writing the number a digit string reads, at the width of the string,
    gives the string back. *)
Lemma digits_fixed_int_of_text (ds : list ascii) :
  forallb is_digit ds = true ->
  digits_fixed (List.length ds) (int_of_text ds) = ds.
Proof.
  induction ds as [| c ds IH] using rev_ind; intro H.
  - reflexivity.
  - rewrite forallb_app in H. apply andb_true_iff in H. destruct H as [Hds Hc].
    simpl in Hc. rewrite andb_true_r in Hc.
    rewrite length_app, Nat.add_comm. simpl.
    rewrite int_of_text_snoc by assumption.
    pose proof (digit_val_range c Hc) as Hr.
    replace ((int_of_text ds * 10 + digit_val c) / 10) with (int_of_text ds)
      by (apply Z.div_unique with (r := digit_val c); lia).
    replace ((int_of_text ds * 10 + digit_val c) mod 10) with (digit_val c)
      by (apply Z.mod_unique with (q := int_of_text ds); lia).
    rewrite IH by assumption. now rewrite digit_char_val.
Qed.

Ltac digit_split H :=
  apply is_digit_cases in H; simpl in H;
  repeat (destruct H as [H | H]; [symmetry in H | ]); [ .. | contradiction].

Lemma try_alts_two {A} (alts : list (list cls)) (a b : ascii) (r : list ascii)
    (k : list ascii -> list ascii -> option A) :
  short_alts alts = true ->
  k [a] (b :: r) = None ->
  try_alts alts (a :: b :: r) k = if accept2 alts a b then k [a; b] r else None.
Proof.
  intros Hlen Hk. induction alts as [| alt alts IH]; [reflexivity | ].
  simpl in Hlen. apply andb_true_iff in Hlen. destruct Hlen as [Halt Hlen].
  specialize (IH Hlen).
  destruct alt as [| c1 [| c2 [| c3 alt]]]; try discriminate Halt.
  - simpl. destruct (c1 a); [rewrite Hk | ]; exact IH.
  - simpl. destruct (c1 a); simpl; [ | exact IH].
    destruct (c2 b); simpl; [ | exact IH].
    destruct (k [a; b] r) eqn:Hab; [reflexivity | ].
    rewrite IH. now destruct (accept2 alts a b).
Qed.

Lemma re_match_Lit (c : cls) (a : ascii) (r : list ascii) (p : list item) :
  c a = true -> re_match (Lit c :: p) (a :: r) = re_match p r.
Proof. intro H. simpl. now rewrite H. Qed.

Lemma re_match_Y (y1 y2 y3 y4 : ascii) (r : list ascii) (p : list item) :
  is_digit y1 = true -> is_digit y2 = true -> is_digit y3 = true -> is_digit y4 = true ->
  re_match (Group re_Y :: p) (y1 :: y2 :: y3 :: y4 :: r) =
  match re_match p r with
  | Some (gs, r0) => Some ([y1; y2; y3; y4] :: gs, r0)
  | None => None
  end.
Proof.
  intros H1 H2 H3 H4.
  change (re_match (Group re_Y :: p) (y1 :: y2 :: y3 :: y4 :: r))
    with (try_alts re_Y (y1 :: y2 :: y3 :: y4 :: r)
            (fun txt rest => match re_match p rest with
                             | Some (gs, r0) => Some (txt :: gs, r0)
                             | None => None
                             end)).
  unfold re_Y, try_alts, match_seq, d09. rewrite H1, H2, H3, H4.
  now destruct (re_match p r) as [[gs r0] | ].
Qed.

Lemma re_match_two (alts : list (list cls)) (sep : cls) (p : list item)
    (a b : ascii) (r : list ascii) :
  short_alts alts = true ->
  sep b = false ->
  re_match (Group alts :: Lit sep :: p) (a :: b :: r) =
  if accept2 alts a b then
    match re_match (Lit sep :: p) r with
    | Some (gs, r0) => Some ([a; b] :: gs, r0)
    | None => None
    end
  else None.
Proof.
  intros Hlen Hsep.
  change (re_match (Group alts :: Lit sep :: p) (a :: b :: r))
    with (try_alts alts (a :: b :: r)
            (fun txt rest => match re_match (Lit sep :: p) rest with
                             | Some (gs, r0) => Some (txt :: gs, r0)
                             | None => None
                             end)).
  apply try_alts_two; [assumption | ].
  simpl. now rewrite Hsep.
Qed.

Lemma dash_not_digit (b : ascii) : is_digit b = true -> lit "-" b = false.
Proof. intro H. digit_split H; subst b; reflexivity. Qed.

Lemma colon_not_digit (b : ascii) : is_digit b = true -> lit ":" b = false.
Proof. intro H. digit_split H; subst b; reflexivity. Qed.

Lemma T_not_digit (b : ascii) : is_digit b = true -> lit_nocase "T" "t" b = false.
Proof. intro H. digit_split H; subst b; reflexivity. Qed.

Lemma Z_not_digit (b : ascii) : is_digit b = true -> lit_nocase "Z" "z" b = false.
Proof. intro H. digit_split H; subst b; reflexivity. Qed.

(** What the expression of the format finds in a string of the pattern. *)
Lemma re_match_iso (y1 y2 y3 y4 m1 m2 d1 d2 h1 h2 n1 n2 s1 s2 : ascii) :
  forallb is_digit [y1; y2; y3; y4; m1; m2; d1; d2; h1; h2; n1; n2; s1; s2] = true ->
  re_match iso_regex
    [y1; y2; y3; y4; "-"; m1; m2; "-"; d1; d2; "T"; h1; h2; ":"; n1; n2; ":"; s1; s2; "Z"]%char =
  if accept2 re_m m1 m2 && accept2 re_d d1 d2 && accept2 re_H h1 h2
     && accept2 re_M n1 n2 && accept2 re_S s1 s2
  then Some ([[y1; y2; y3; y4]; [m1; m2]; [d1; d2]; [h1; h2]; [n1; n2]; [s1; s2]], [])
  else None.
Proof.
  intro H. simpl in H.
  repeat (apply andb_true_iff in H; destruct H as [? H]).
  unfold iso_regex.
  rewrite re_match_Y by assumption.
  rewrite re_match_Lit by reflexivity.
  rewrite (re_match_two re_m) by (try reflexivity; now apply dash_not_digit).
  rewrite re_match_Lit by reflexivity.
  rewrite (re_match_two re_d) by (try reflexivity; now apply T_not_digit).
  rewrite re_match_Lit by reflexivity.
  rewrite (re_match_two re_H) by (try reflexivity; now apply colon_not_digit).
  rewrite re_match_Lit by reflexivity.
  rewrite (re_match_two re_M) by (try reflexivity; now apply colon_not_digit).
  rewrite re_match_Lit by reflexivity.
  rewrite (re_match_two re_S) by (try reflexivity; now apply Z_not_digit).
  rewrite re_match_Lit by reflexivity.
  destruct (accept2 re_m m1 m2), (accept2 re_d d1 d2), (accept2 re_H h1 h2),
    (accept2 re_M n1 n2), (accept2 re_S s1 s2); reflexivity.
Qed.

Lemma datetime_new_inv (y m d hh mm ss us : Z) (t : datetime) :
  datetime_new y m d hh mm ss us = Ok t ->
  t = mkdt y m d hh mm ss us /\
  (1 <= y <= 9999) /\ (1 <= m <= 12) /\ (1 <= d <= days_in_month y m) /\
  (0 <= hh <= 23) /\ (0 <= mm <= 59) /\ (0 <= ss <= 59) /\ (0 <= us <= 999999).
Proof.
  unfold datetime_new, MINYEAR, MAXYEAR.
  repeat match goal with
         | |- context [negb (?a && ?b)] =>
             let E1 := fresh "E" in let E2 := fresh "E" in
             destruct a eqn:E1; [destruct b eqn:E2 | ]; cbn [negb andb];
             try (intro; discriminate)
         end.
  intro H. injection H as <-.
  repeat match goal with
         | H : (_ <=? _) = true |- _ => apply Z.leb_le in H
         end.
  repeat split; assumption.
Qed.

Lemma days_in_month_le (y m : Z) : 1 <= m <= 12 -> days_in_month y m <= 31.
Proof.
  intro H. unfold days_in_month.
  assert (Hm : In m [1; 2; 3; 4; 5; 6; 7; 8; 9; 10; 11; 12]) by (simpl; lia).
  simpl in Hm.
  repeat (destruct Hm as [Hm | Hm];
          [subst m; destruct (is_leap y); cbv; discriminate | ]).
  contradiction.
Qed.

(** The alternatives of a directive take every two-digit text whose number
    is in the range of the field. *)
Lemma accept2_range (alts : list (list cls)) (lo hi : Z) :
  forallb (fun a => forallb (fun b =>
    implb ((lo <=? int_of_text [a; b]) && (int_of_text [a; b] <=? hi)) (accept2 alts a b))
    ["0"; "1"; "2"; "3"; "4"; "5"; "6"; "7"; "8"; "9"]%char)
    ["0"; "1"; "2"; "3"; "4"; "5"; "6"; "7"; "8"; "9"]%char = true ->
  forall a b, is_digit a = true -> is_digit b = true ->
    lo <= int_of_text [a; b] <= hi -> accept2 alts a b = true.
Proof.
  intros Hall a b Ha Hb Hr.
  rewrite forallb_forall in Hall.
  specialize (Hall a (is_digit_cases a Ha)).
  rewrite forallb_forall in Hall.
  specialize (Hall b (is_digit_cases b Hb)).
  destruct Hr as [Hlo Hhi].
  apply Z.leb_le in Hlo, Hhi. rewrite Hlo, Hhi in Hall. exact Hall.
Qed.

Lemma accept2_m a b : is_digit a = true -> is_digit b = true ->
  1 <= int_of_text [a; b] <= 12 -> accept2 re_m a b = true.
Proof. apply accept2_range. vm_compute. reflexivity. Qed.

Lemma accept2_d a b : is_digit a = true -> is_digit b = true ->
  1 <= int_of_text [a; b] <= 31 -> accept2 re_d a b = true.
Proof. apply accept2_range. vm_compute. reflexivity. Qed.

Lemma accept2_H a b : is_digit a = true -> is_digit b = true ->
  0 <= int_of_text [a; b] <= 23 -> accept2 re_H a b = true.
Proof. apply accept2_range. vm_compute. reflexivity. Qed.

Lemma accept2_M a b : is_digit a = true -> is_digit b = true ->
  0 <= int_of_text [a; b] <= 59 -> accept2 re_M a b = true.
Proof. apply accept2_range. vm_compute. reflexivity. Qed.

Lemma accept2_S a b : is_digit a = true -> is_digit b = true ->
  0 <= int_of_text [a; b] <= 59 -> accept2 re_S a b = true.
Proof. apply accept2_range. vm_compute. reflexivity. Qed.

(** The shape of a string that [iso_fields] reads. *)
Lemma iso_fields_shape (s : string) (f : Z * Z * Z * Z * Z * Z) :
  iso_fields s = Some f ->
  exists y1 y2 y3 y4 m1 m2 d1 d2 h1 h2 n1 n2 s1 s2,
    list_ascii_of_string s =
      [y1; y2; y3; y4; "-"; m1; m2; "-"; d1; d2; "T"; h1; h2; ":"; n1; n2; ":"; s1; s2; "Z"]%char
    /\ forallb is_digit [y1; y2; y3; y4; m1; m2; d1; d2; h1; h2; n1; n2; s1; s2] = true
    /\ f = (int_of_text [y1; y2; y3; y4], int_of_text [m1; m2], int_of_text [d1; d2],
            int_of_text [h1; h2], int_of_text [n1; n2], int_of_text [s1; s2]).
Proof.
  unfold iso_fields.
  destruct (list_ascii_of_string s)
    as [| y1 [| y2 [| y3 [| y4 [| c1 [| m1 [| m2 [| c2 [| d1 [| d2 [| c3 [| h1 [| h2
       [| c4 [| n1 [| n2 [| c5 [| s1 [| s2 [| c6 [| ? ?]]]]]]]]]]]]]]]]]]]]];
    try discriminate.
  match goal with |- (if ?c then _ else _) = _ -> _ => destruct c eqn:Hc end;
    [ | discriminate].
  intro H. injection H as <-.
  do 6 (apply andb_true_iff in Hc; destruct Hc as [Hc ?]).
  repeat match goal with
         | H : Ascii.eqb _ _ = true |- _ => apply Ascii.eqb_eq in H; subst
         end.
  exists y1, y2, y3, y4, m1, m2, d1, d2, h1, h2, n1, n2, s1, s2.
  repeat split. exact Hc.
Qed.

(** On a string of the pattern the normalizer is the constructor check of
    the six numbers, once every field is a text its directive takes. *)
Lemma strptime_iso_on_pattern (y1 y2 y3 y4 m1 m2 d1 d2 h1 h2 n1 n2 s1 s2 : ascii) (s : string) :
  list_ascii_of_string s =
    [y1; y2; y3; y4; "-"; m1; m2; "-"; d1; d2; "T"; h1; h2; ":"; n1; n2; ":"; s1; s2; "Z"]%char ->
  forallb is_digit [y1; y2; y3; y4; m1; m2; d1; d2; h1; h2; n1; n2; s1; s2] = true ->
  strptime_iso s =
  if accept2 re_m m1 m2 && accept2 re_d d1 d2 && accept2 re_H h1 h2
     && accept2 re_M n1 n2 && accept2 re_S s1 s2
  then datetime_new (int_of_text [y1; y2; y3; y4]) (int_of_text [m1; m2])
         (int_of_text [d1; d2]) (int_of_text [h1; h2]) (int_of_text [n1; n2])
         (int_of_text [s1; s2]) 0
  else Err (ValueError ("time data '" ++ s ++ "' does not match format '%Y-%m-%dT%H:%M:%SZ'")).
Proof.
  intros Hs Hd. unfold strptime_iso. rewrite Hs, re_match_iso by assumption.
  now destruct (accept2 re_m m1 m2 && accept2 re_d d1 d2 && accept2 re_H h1 h2
                && accept2 re_M n1 n2 && accept2 re_S s1 s2).
Qed.

(** C5.  A string of the pattern YYYY-MM-DDTHH:MM:SSZ that the Date
    Normalizer accepts is given back unchanged when the instant is written
    to the pattern again; and the Date Normalizer accepts every such string
    whose six numbers form an instant. *)
Theorem convert_then_format_identity (s : string) :
  matches_iso_pattern s = true ->
  (forall t, convert_string_to_iso_date (JStr s) = Ok t -> format_iso_date t = s) /\
  (forall y m d hh mm ss t,
      iso_fields s = Some (y, m, d, hh, mm, ss) ->
      datetime_new y m d hh mm ss 0 = Ok t ->
      convert_string_to_iso_date (JStr s) = Ok t).
Proof.
  unfold matches_iso_pattern. destruct (iso_fields s) as [f | ] eqn:Hf; [intros _ | discriminate].
  destruct (iso_fields_shape s f Hf)
    as (y1 & y2 & y3 & y4 & m1 & m2 & d1 & d2 & h1 & h2 & n1 & n2 & s1 & s2 & Hs & Hd & ->).
  pose proof (strptime_iso_on_pattern _ _ _ _ _ _ _ _ _ _ _ _ _ _ s Hs Hd) as Hp.
  simpl convert_string_to_iso_date. rewrite Hp.
  pose proof Hd as Hd'. cbn [forallb] in Hd'.
  repeat (apply andb_true_iff in Hd'; destruct Hd' as [? Hd']).
  split.
  - intros t Ht.
    destruct (accept2 re_m m1 m2 && accept2 re_d d1 d2 && accept2 re_H h1 h2
              && accept2 re_M n1 n2 && accept2 re_S s1 s2); [ | discriminate Ht].
    apply datetime_new_inv in Ht. destruct Ht as [-> _].
    unfold format_iso_date. simpl year. simpl month. simpl day. simpl hour.
    simpl minute. simpl second.
    change 4%nat with (List.length [y1; y2; y3; y4]).
    change (digits_fixed 2 (int_of_text [m1; m2]))
      with (digits_fixed (List.length [m1; m2]) (int_of_text [m1; m2])).
    change (digits_fixed 2 (int_of_text [d1; d2]))
      with (digits_fixed (List.length [d1; d2]) (int_of_text [d1; d2])).
    change (digits_fixed 2 (int_of_text [h1; h2]))
      with (digits_fixed (List.length [h1; h2]) (int_of_text [h1; h2])).
    change (digits_fixed 2 (int_of_text [n1; n2]))
      with (digits_fixed (List.length [n1; n2]) (int_of_text [n1; n2])).
    change (digits_fixed 2 (int_of_text [s1; s2]))
      with (digits_fixed (List.length [s1; s2]) (int_of_text [s1; s2])).
    rewrite !digits_fixed_int_of_text
      by (cbn [forallb];
          repeat match goal with
                 | Hc : is_digit ?c = true |- context [is_digit ?c] => rewrite Hc
                 end; reflexivity).
    rewrite <- (string_of_list_ascii_of_string s), Hs. reflexivity.
  - intros y m d hh mm ss t Heq Ht. injection Heq as <- <- <- <- <- <-.
    pose proof (datetime_new_inv _ _ _ _ _ _ _ _ Ht)
      as (_ & _ & Hm & Hday & Hh & Hmin & Hsec & _).
    pose proof (days_in_month_le (int_of_text [y1; y2; y3; y4]) _ Hm).
    rewrite accept2_m, accept2_d, accept2_H, accept2_M, accept2_S by (auto; lia).
    exact Ht.
Qed.

Lemma convert_then_format_identity_witness :
  matches_iso_pattern T0 = true /\
  format_iso_date (mkdt 2020 6 1 12 0 0 0) = T0 /\
  convert_string_to_iso_date (JStr T0) = Ok (mkdt 2020 6 1 12 0 0 0).
Proof.
  split; [reflexivity | ].
  split.
  - apply (proj1 (convert_then_format_identity T0 eq_refl)). reflexivity.
  - apply (proj2 (convert_then_format_identity T0 eq_refl) 2020 6 1 12 0 0); reflexivity.
Defined.

(** * The window filter *)

Lemma window_filter_cons (stamp : json -> result json) (row : json) (rows : list json)
    (b e : datetime) :
  window_filter stamp (row :: rows) b e =
  match row_time stamp row with
  | Ok t =>
      match window_filter stamp rows b e with
      | Ok kept => Ok (if in_window b e t then row :: kept else kept)
      | Err x => Err x
      end
  | Err x => Err x
  end.
Proof.
  unfold row_time. simpl. destruct (stamp row) as [v | x]; [simpl | reflexivity].
  now destruct (convert_string_to_iso_date v).
Qed.

(** When the comprehension ends, it has kept exactly the rows inside the
    window, in their order. *)
Lemma window_filter_is_filter (stamp : json -> result json) (rows kept : list json)
    (b e : datetime) :
  window_filter stamp rows b e = Ok kept ->
  kept = filter (row_in_window stamp b e) rows.
Proof.
  revert kept. induction rows as [| row rows IH]; intros kept H.
  - injection H as <-. reflexivity.
  - rewrite window_filter_cons in H. cbn [filter]. unfold row_in_window at 1.
    destruct (row_time stamp row) as [t | x]; [ | discriminate H].
    destruct (window_filter stamp rows b e) as [kept' | x]; [ | discriminate H].
    injection H as <-. rewrite <- (IH kept' eq_refl).
    now destruct (in_window b e t).
Qed.

(** The comprehension ends as soon as every row has a timestamp the
    normalizer takes. *)
Lemma window_filter_total (stamp : json -> result json) (rows : list json) (b e : datetime) :
  Forall (fun row => exists t, row_time stamp row = Ok t) rows ->
  window_filter stamp rows b e = Ok (filter (row_in_window stamp b e) rows).
Proof.
  induction 1 as [| row rows [t Ht] _ IH]; [reflexivity | ].
  rewrite window_filter_cons, Ht, IH. cbn [filter].
  replace (row_in_window stamp b e row) with (in_window b e t)
    by (unfold row_in_window; now rewrite Ht).
  reflexivity.
Qed.

(** A row outside the window can be taken out of the input without any
    change to what the comprehension gives. *)
Lemma window_filter_drop (stamp : json -> result json) (l1 l2 : list json) (r : json)
    (b e t : datetime) :
  row_time stamp r = Ok t ->
  in_window b e t = false ->
  window_filter stamp (l1 ++ r :: l2) b e = window_filter stamp (l1 ++ l2) b e.
Proof.
  intros Ht Hout. induction l1 as [| x l1 IH].
  - simpl app. rewrite window_filter_cons, Ht, Hout.
    now destruct (window_filter stamp l2 b e).
  - rewrite <- !app_comm_cons, !window_filter_cons, IH. reflexivity.
Qed.

Lemma lex_cmp_refl (l : list Z) : lex_cmp l l = Eq.
Proof. induction l as [| x l IH]; [reflexivity | ]. simpl. now rewrite Z.compare_refl. Qed.

Lemma dt_leb_refl (t : datetime) : dt_leb t t = true.
Proof. unfold dt_leb, dt_cmp. now rewrite lex_cmp_refl. Qed.

(** C1.  Both window filters keep exactly the rows whose timestamp [t] has
    [begin <= t <= end], the two bounds included, and a row whose timestamp
    is outside the window changes nothing in what the Top-Author Aggregator
    and the State Counter do. *)
Theorem window_filter_inclusive (stamp : json -> result json) (begin end_ : datetime) :
  (forall rows kept,
      window_filter stamp rows begin end_ = Ok kept ->
      kept = filter (row_in_window stamp begin end_) rows /\
      Forall (fun row => exists t, row_time stamp row = Ok t /\
                                   dt_leb begin t = true /\ dt_leb t end_ = true) kept) /\
  (forall row, dt_leb begin end_ = true ->
      row_time stamp row = Ok begin \/ row_time stamp row = Ok end_ ->
      window_filter stamp [row] begin end_ = Ok [row]) /\
  (forall l1 r l2 t top_count w,
      row_time author_date r = Ok t ->
      in_window begin end_ t = false ->
      get_top_authors (JArr (l1 ++ r :: l2)) begin end_ top_count w =
      get_top_authors (JArr (l1 ++ l2)) begin end_ top_count w) /\
  (forall l1 r l2 t w,
      row_time created_at r = Ok t ->
      in_window begin end_ t = false ->
      get_count (JArr (l1 ++ r :: l2)) begin end_ w =
      get_count (JArr (l1 ++ l2)) begin end_ w).
Proof.
  repeat split.
  - now apply window_filter_is_filter.
  - apply window_filter_is_filter in H. subst kept.
    apply Forall_forall. intros row Hin. apply filter_In in Hin.
    destruct Hin as [_ Hin]. unfold row_in_window in Hin.
    destruct (row_time stamp row) as [t | x]; [ | discriminate Hin].
    apply andb_true_iff in Hin. exists t. tauto.
  - intros row Hbe Hrow. rewrite window_filter_cons.
    destruct Hrow as [-> | ->]; simpl; unfold in_window;
      now rewrite Hbe, dt_leb_refl.
  - intros l1 r l2 t top_count w Ht Hout. unfold get_top_authors, bind. simpl.
    now rewrite (window_filter_drop author_date l1 l2 r begin end_ t).
  - intros l1 r l2 t w Ht Hout. unfold get_count, bind. simpl.
    now rewrite (window_filter_drop created_at l1 l2 r begin end_ t).
Qed.

Lemma window_filter_inclusive_witness :
  get_count (JArr ([item_in_state "open" T0] ++
                   item_in_state "open" "2019-01-01T00:00:00Z" :: []))
            year_2020_begin year_2020_end w0 =
  get_count (JArr ([item_in_state "open" T0] ++ [])) year_2020_begin year_2020_end w0.
Proof.
  apply (proj2 (proj2 (proj2 (window_filter_inclusive created_at
                                year_2020_begin year_2020_end))))
    with (t := mkdt 2019 1 1 0 0 0 0); reflexivity.
Defined.

(** * The State Counter *)

Lemma set_log_same (w : world) : set_log (w_log w) w = w.
Proof. now destruct w. Qed.

Lemma count_where_bounds {A} (f : A -> bool) (l : list A) :
  0 <= count_where f l <= Z.of_nat (List.length l).
Proof.
  induction l as [| x l IH]; [simpl; lia | ].
  cbn [count_where List.length]. rewrite Nat2Z.inj_succ. destruct (f x); lia.
Qed.

Lemma count_where_pos_iff {A} (f : A -> bool) (l : list A) :
  0 < count_where f l <-> Exists (fun x => f x = true) l.
Proof.
  induction l as [| x l IH]; cbn [count_where].
  - split; [lia | intro H; inversion H].
  - pose proof (count_where_bounds f l). split.
    + intro H0. destruct (f x) eqn:Hx; [now left | right; apply IH; lia].
    + intro H0. inversion H0 as [? ? Hx | ? ? Hl]; subst.
      * rewrite Hx. lia.
      * apply IH in Hl. destruct (f x); lia.
Qed.

Lemma count_one_spec (row : json) (o c : Z) :
  count_one row [("open", o); ("closed", c)] =
  match subscript row "state" with
  | Ok st => Ok [("open", o + (if py_eq_str st "open" then 1 else 0));
                 ("closed", c + (if py_eq_str st "closed" then 1 else 0))]
  | Err e => Err e
  end.
Proof.
  unfold count_one. destruct (subscript row "state") as [st | e]; [ | reflexivity].
  cbn [rbind].
  destruct st; cbn [py_eq_str]; try (now rewrite !Z.add_0_r).
  destruct (String.eqb s "open") eqn:Ho.
  - apply String.eqb_eq in Ho. subst s. cbn -[Z.add]. now rewrite Z.add_0_r.
  - destruct (String.eqb s "closed"); cbn -[Z.add]; now rewrite !Z.add_0_r.
Qed.

(** The loop of the State Counter, from any two counts. *)
Lemma count_states_spec (data : list json) (o c : Z) (w : world) :
  count_states data [("open", o); ("closed", c)] w =
  (Ret [("open", o + count_where (state_is "open") data);
        ("closed", c + count_where (state_is "closed") data)],
   set_log (log_after_count data (w_log w)) w).
Proof.
  revert o c w. induction data as [| row data IH]; intros o c w.
  - cbn [count_states count_where log_after_count]. unfold ret.
    now rewrite !Z.add_0_r, set_log_same.
  - destruct (subscript row "state") as [st | e] eqn:Hs.
    + assert (Ho : state_is "open" row = py_eq_str st "open")
        by (unfold state_is; now rewrite Hs).
      assert (Hc : state_is "closed" row = py_eq_str st "closed")
        by (unfold state_is; now rewrite Hs).
      cbn [count_states count_where log_after_count].
      rewrite count_one_spec, Hs, Ho, Hc, IH, !Z.add_assoc. reflexivity.
    + assert (Ho : state_is "open" row = false)
        by (unfold state_is; now rewrite Hs).
      assert (Hc : state_is "closed" row = false)
        by (unfold state_is; now rewrite Hs).
      cbn [count_states count_where log_after_count].
      rewrite count_one_spec, Hs, Ho, Hc. unfold bind, log_overwrite.
      rewrite IH. now rewrite !Z.add_0_l.
Qed.

Lemma state_partition_row (row : json) :
  (if state_is "open" row then 1 else 0) + (if state_is "closed" row then 1 else 0)
  + (if state_unexpected row then 1 else 0) = 1.
Proof.
  unfold state_unexpected.
  destruct (state_is "open" row) eqn:Ho, (state_is "closed" row) eqn:Hc;
    cbn [orb negb]; try reflexivity.
  exfalso. unfold state_is in Ho, Hc.
  destruct (subscript row "state") as [st | e]; [ | discriminate Ho].
  destruct st; try discriminate Ho. cbn [py_eq_str] in Ho, Hc.
  apply String.eqb_eq in Ho, Hc. subst s. discriminate Hc.
Qed.

(** Every row is counted as open, as closed, or as neither. *)
Lemma count_states_partition (data : list json) :
  count_where (state_is "open") data + count_where (state_is "closed") data
  + count_where state_unexpected data = Z.of_nat (List.length data).
Proof.
  induction data as [| row data IH]; [reflexivity | ].
  cbn [count_where List.length]. rewrite Nat2Z.inj_succ.
  pose proof (state_partition_row row). lia.
Qed.

(** [get_count] once its window filter has ended. *)
Lemma get_count_spec (raw_data : json) (rows data : list json) (b e : datetime) (w : world) :
  py_iter raw_data = Ok rows ->
  window_filter created_at rows b e = Ok data ->
  get_count raw_data b e w =
  (Ret [("open", count_where (state_is "open") data);
        ("closed", count_where (state_is "closed") data)],
   set_log (log_after_count data (w_log w)) w).
Proof.
  intros Hit Hf. unfold get_count, bind. rewrite Hit. cbn [lift]. unfold ret at 1.
  rewrite Hf. cbn [lift]. unfold ret at 1. now rewrite count_states_spec.
Qed.

(** C4.  When every record carries a creation timestamp, the State Counter
    returns a mapping with the two keys [open] and [closed]; the two counts
    are those of the open and of the closed records of the filtered subset,
    their sum is at most its size, and it is smaller exactly when the subset
    holds a record whose state is absent or neither [open] nor [closed].
    And whenever the State Counter returns at all, its window filter has
    ended and the mapping it returns is of this kind. *)
Theorem state_count_sum (raw_data : json) (begin end_ : datetime) (w : world) :
  (forall rows,
      py_iter raw_data = Ok rows ->
      Forall (fun row => exists t, row_time created_at row = Ok t) rows ->
      let data := filter (row_in_window created_at begin end_) rows in
      exists n_open n_closed w',
        get_count raw_data begin end_ w = (Ret [("open", n_open); ("closed", n_closed)], w') /\
        n_open = count_where (state_is "open") data /\
        n_closed = count_where (state_is "closed") data /\
        n_open + n_closed <= Z.of_nat (List.length data) /\
        (n_open + n_closed < Z.of_nat (List.length data) <->
         Exists (fun row => state_unexpected row = true) data)) /\
  (forall count_dct w',
      get_count raw_data begin end_ w = (Ret count_dct, w') ->
      exists rows data n_open n_closed,
        py_iter raw_data = Ok rows /\
        window_filter created_at rows begin end_ = Ok data /\
        count_dct = [("open", n_open); ("closed", n_closed)] /\
        n_open + n_closed <= Z.of_nat (List.length data) /\
        (n_open + n_closed < Z.of_nat (List.length data) <->
         Exists (fun row => state_unexpected row = true) data)).
Proof.
  assert (Hsum : forall data,
             count_where (state_is "open") data + count_where (state_is "closed") data
               <= Z.of_nat (List.length data) /\
             (count_where (state_is "open") data + count_where (state_is "closed") data
                < Z.of_nat (List.length data) <->
              Exists (fun row => state_unexpected row = true) data)).
  { intro data.
    pose proof (count_states_partition data) as Hp.
    pose proof (count_where_bounds state_unexpected data) as Hb.
    pose proof (count_where_pos_iff state_unexpected data) as Hpos.
    split; [lia | ]. split; intro H; [apply Hpos; lia | apply Hpos in H; lia]. }
  split.
  - intros rows Hit Hrows data.
    pose proof (window_filter_total created_at rows begin end_ Hrows) as Hf.
    fold data in Hf.
    exists (count_where (state_is "open") data), (count_where (state_is "closed") data).
    eexists. split; [exact (get_count_spec raw_data rows data begin end_ w Hit Hf) | ].
    destruct (Hsum data). auto.
  - intros count_dct w' Hrun.
    destruct (py_iter raw_data) as [rows | x] eqn:Hit;
      [ | unfold get_count, bind in Hrun; rewrite Hit in Hrun; discriminate Hrun].
    destruct (window_filter created_at rows begin end_) as [data | x] eqn:Hf;
      [ | unfold get_count, bind in Hrun; rewrite Hit in Hrun; cbn [lift] in Hrun;
          unfold ret in Hrun; rewrite Hf in Hrun; discriminate Hrun].
    rewrite (get_count_spec raw_data rows data begin end_ w Hit Hf) in Hrun.
    injection Hrun as <- _.
    exists rows, data, (count_where (state_is "open") data),
      (count_where (state_is "closed") data).
    destruct (Hsum data). auto.
Qed.

Lemma state_count_sum_witness :
  exists n_open n_closed w',
    get_count (JArr sample_pulls) year_2020_begin year_2020_end w0 =
      (Ret [("open", n_open); ("closed", n_closed)], w') /\
    n_open = 1 /\ n_closed = 1 /\ n_open + n_closed <= 4 /\
    (n_open + n_closed < 4 <->
     Exists (fun row => state_unexpected row = true)
       (filter (row_in_window created_at year_2020_begin year_2020_end) sample_pulls)).
Proof.
  apply (proj1 (state_count_sum (JArr sample_pulls) year_2020_begin year_2020_end w0)
           sample_pulls).
  - reflexivity.
  - repeat constructor; eexists; reflexivity.
Defined.

(** * The Top-Author Aggregator *)

Lemma tally_authors_spec (commits : list json) (dct : list (py_key * Z)) (w : world) :
  tally_authors commits dct w =
  (Ret (pure_tally commits dct),
   set_ticks (w_ticks w + 2 * Z.to_nat (count_where (fun c => negb (login_readable c)) commits))
     (set_log (w_log w ++ tally_entries (w_clock w) (w_ticks w) commits) w)).
Proof.
  revert dct w. induction commits as [| commit rest IH]; intros dct w.
  - cbn [tally_authors pure_tally tally_entries count_where]. unfold ret.
    rewrite app_nil_r. destruct w. unfold set_ticks, set_log. cbn.
    now rewrite Nat.add_0_r.
  - cbn [tally_authors pure_tally tally_entries count_where]. unfold login_readable at 1.
    destruct (author_login commit) as [k | e]; cbn [negb].
    + rewrite IH. now rewrite Z.add_0_l.
    + unfold bind, datetime_now, write_log, bind, datetime_now, log_append.
      cbn [fst snd]. rewrite IH. f_equal.
      pose proof (count_where_bounds (fun c => negb (login_readable c)) rest) as Hb.
      rewrite Z2Nat.inj_add by lia.
      destruct w. unfold set_ticks, set_log. cbn [w_ticks w_log w_clock w_out w_net w_sent w_typed].
      rewrite <- app_assoc. f_equal. change (Z.to_nat 1) with 1%nat. lia.
Qed.

Lemma pure_tally_readable (commits : list json) (dct : list (py_key * Z)) :
  pure_tally commits dct = pure_tally (filter login_readable commits) dct.
Proof.
  revert dct. induction commits as [| commit rest IH]; intro dct; [reflexivity | ].
  cbn [pure_tally filter]. unfold login_readable at 1.
  destruct (author_login commit) as [k | e] eqn:Hk.
  - cbn [pure_tally]. now rewrite Hk.
  - apply IH.
Qed.

Lemma tally_entries_length (clock : nat -> datetime) (ticks : nat) (commits : list json) :
  Z.of_nat (List.length (tally_entries clock ticks commits)) =
  count_where (fun c => negb (login_readable c)) commits.
Proof.
  revert ticks. induction commits as [| commit rest IH]; intro ticks; [reflexivity | ].
  cbn [tally_entries count_where]. unfold login_readable at 1.
  destruct (author_login commit) as [k | e]; cbn [negb].
  - now rewrite IH.
  - cbn [List.length]. rewrite Nat2Z.inj_succ, IH. lia.
Qed.

Lemma print_rows_spec (top_authors : list (py_key * Z)) (w : world) :
  print_rows top_authors w =
  (match snd (printed_rows top_authors) with
   | Ok _ => Ret tt
   | Err e => Raise e
   end,
   set_out (w_out w ++ fst (printed_rows top_authors)) w).
Proof.
  revert w. induction top_authors as [| author rest IH]; intro w.
  - cbn. rewrite app_nil_r. now destruct w.
  - cbn [print_rows printed_rows].
    destruct (format_row (fst author) (snd author)) as [line | e].
    + unfold bind at 1. cbn [lift]. unfold ret at 1. unfold bind at 1, print at 1.
      rewrite IH. destruct (printed_rows rest) as [ls r]. cbn [fst snd].
      f_equal. destruct w. unfold set_out. cbn. now rewrite <- app_assoc.
    + cbn. rewrite app_nil_r. now destruct w.
Qed.

Lemma row_time_object (stamp_key : string) (row : json) (t : datetime) :
  row_time (fun r => subscript r stamp_key) row = Ok t -> exists d, row = JObj d.
Proof.
  unfold row_time. destruct row; try discriminate. intros _. now eexists.
Qed.

Lemma author_date_object (row : json) (t : datetime) :
  row_time author_date row = Ok t -> exists d, row = JObj d.
Proof.
  unfold row_time, author_date. destruct row; try discriminate. intros _. now eexists.
Qed.

(** No row that passed the filter of commits equals the string "message":
    the first test of [get_top_authors] always takes the counting branch. *)
Lemma kept_commits_not_message (rows commits : list json) (b e : datetime) :
  window_filter author_date rows b e = Ok commits ->
  existsb (fun row => py_eq_str row "message") commits = false.
Proof.
  intro H. apply window_filter_is_filter in H. subst commits.
  induction rows as [| row rows IH]; [reflexivity | ].
  cbn [filter]. unfold row_in_window at 1.
  destruct (row_time author_date row) as [t | x] eqn:Ht; [ | exact IH].
  destruct (in_window b e t); [ | exact IH].
  destruct (author_date_object row t Ht) as [d ->]. cbn [existsb py_eq_str orb]. exact IH.
Qed.

(** [get_top_authors] once its window filter has ended. *)
Lemma get_top_authors_spec (data : json) (rows commits : list json) (b e : datetime)
    (top_count : Z) (w : world) :
  py_iter data = Ok rows ->
  window_filter author_date rows b e = Ok commits ->
  get_top_authors data b e top_count w =
  (match snd (printed_rows (most_common top_count (pure_tally commits []))) with
   | Ok _ => Ret None
   | Err x => Raise x
   end,
   set_out (w_out w ++ [table_header ++ nl; table_rule ++ nl]
            ++ fst (printed_rows (most_common top_count (pure_tally commits []))))
     (set_ticks (w_ticks w + 2 * Z.to_nat (count_where (fun c => negb (login_readable c)) commits))
        (set_log (w_log w ++ tally_entries (w_clock w) (w_ticks w) commits) w))).
Proof.
  intros Hit Hf. unfold get_top_authors. unfold bind at 1. rewrite Hit. cbn [lift].
  unfold ret at 1. unfold bind at 1. rewrite Hf. cbn [lift]. unfold ret at 1.
  rewrite (kept_commits_not_message rows commits b e Hf). cbn [negb].
  unfold bind at 1. rewrite tally_authors_spec.
  unfold bind at 1, print at 1. unfold bind at 1, print at 1. unfold bind at 1.
  rewrite print_rows_spec.
  destruct (printed_rows (most_common top_count (pure_tally commits []))) as [ls r].
  cbn [fst snd]. destruct r as [[] | x]; unfold ret; f_equal;
    destruct w; unfold set_out, set_ticks, set_log; cbn; now rewrite <- !app_assoc.
Qed.

(** C3.  Given the "Not Found" error object, or any other error object,
    [get_top_authors] raises [TypeError] out of its list comprehension: it
    prints nothing, writes nothing to error.log, and the branch that prints
    "Authors not found" is not reached.  Whatever its input, what it prints
    first, if anything, is the header of the table. *)
Theorem error_object_raises :
  (forall begin end_ top_count w,
      get_top_authors not_found_payload begin end_ top_count w =
      (Raise (TypeError "string indices must be integers"), w)) /\
  (forall k v members begin end_ top_count w,
      get_top_authors (JObj ((k, v) :: members)) begin end_ top_count w =
      (Raise (TypeError "string indices must be integers"), w)) /\
  (forall data begin end_ top_count w,
      let w' := snd (get_top_authors data begin end_ top_count w) in
      w_out w' = w_out w \/
      exists more, w_out w' = (w_out w ++ (table_header ++ nl)%string :: more)%list).
Proof.
  split; [ | split].
  - reflexivity.
  - reflexivity.
  - intros data b e n w w'. subst w'.
    destruct (py_iter data) as [rows | x] eqn:Hit.
    + destruct (window_filter author_date rows b e) as [commits | x] eqn:Hf.
      * right. rewrite (get_top_authors_spec data rows commits b e n w Hit Hf).
        cbn [snd]. eexists. reflexivity.
      * left. unfold get_top_authors, bind. rewrite Hit. cbn [lift]. unfold ret.
        now rewrite Hf.
    + left. unfold get_top_authors, bind. now rewrite Hit.
Qed.

Lemma commit_by_time (login date : string) :
  row_time author_date (commit_by login date) = convert_string_to_iso_date (JStr date).
Proof. reflexivity. Qed.

(** C8 (as the code has it).  On the three commits of alice, bob and alice,
    all dated inside the window, with [top_count] 2, the ranking that
    [get_top_authors] computes is alice with 2 then bob with 1; it prints the
    header, the rule and these two rows, logs nothing, and the value it
    returns is [None]. *)
Theorem top_authors_example (date : string) (t begin end_ : datetime) (w : world) :
  convert_string_to_iso_date (JStr date) = Ok t ->
  in_window begin end_ t = true ->
  (exists dct_authors,
      tally_authors [commit_by "alice" date; commit_by "bob" date; commit_by "alice" date] [] w
        = (Ret dct_authors, w) /\
      most_common 2 dct_authors = [(KStr "alice", 2); (KStr "bob", 1)]) /\
  get_top_authors (three_commits date) begin end_ 2 w =
  (Ret None,
   set_out (w_out w ++ [table_header ++ nl; table_rule ++ nl;
                        "       alice        |    2" ++ nl;
                        "        bob         |    1" ++ nl]) w).
Proof.
  intros Ht Hin. split.
  - exists (pure_tally
              [commit_by "alice" date; commit_by "bob" date; commit_by "alice" date] []).
    split; [ | reflexivity]. rewrite tally_authors_spec.
    cbn. rewrite app_nil_r, Nat.add_0_r. now destruct w.
  - assert (Hf : window_filter author_date
                   [commit_by "alice" date; commit_by "bob" date; commit_by "alice" date]
                   begin end_
                 = Ok [commit_by "alice" date; commit_by "bob" date; commit_by "alice" date]).
    { rewrite !window_filter_cons, !commit_by_time, Ht, Hin. reflexivity. }
    rewrite (get_top_authors_spec (three_commits date) _ _ begin end_ 2 w eq_refl Hf).
    cbn. rewrite app_nil_r, Nat.add_0_r. now destruct w.
Qed.

Lemma top_authors_example_witness :
  get_top_authors (three_commits T0) year_2020_begin year_2020_end 2 w0 =
  (Ret None,
   set_out (w_out w0 ++ [table_header ++ nl; table_rule ++ nl;
                         "       alice        |    2" ++ nl;
                         "        bob         |    1" ++ nl]) w0).
Proof.
  apply (proj2 (top_authors_example T0 (mkdt 2020 6 1 12 0 0 0)
                  year_2020_begin year_2020_end w0 eq_refl eq_refl)).
Defined.

(** What a caller of [get_top_authors] gets on the three commits is [None],
    not the list of pairs. *)
Lemma top_authors_returns_none :
  fst (get_top_authors (three_commits T0) year_2020_begin year_2020_end 2 w0)
  <> Ret (Some [(KStr "alice", 2); (KStr "bob", 1)]).
Proof. intro H. vm_compute in H. discriminate H. Qed.

(** * How error.log is written *)

Lemma appends_only_ret {A} (a : A) : appends_only (ret a).
Proof. intro w. exists []. cbn. now rewrite app_nil_r. Qed.

Lemma appends_only_raise {A} (e : exn) : appends_only (@raise A e).
Proof. intro w. exists []. cbn. now rewrite app_nil_r. Qed.

Lemma appends_only_exit {A} (c : Z) : appends_only (@sys_exit A c).
Proof. intro w. exists []. cbn. now rewrite app_nil_r. Qed.

Lemma appends_only_lift {A} (r : result A) : appends_only (lift r).
Proof. destruct r; [apply appends_only_ret | apply appends_only_raise]. Qed.

Lemma appends_only_print (text : string) : appends_only (print text).
Proof. intro w. exists []. cbn. now rewrite app_nil_r. Qed.

Lemma appends_only_now : appends_only datetime_now.
Proof. intro w. exists []. cbn. now rewrite app_nil_r. Qed.

Lemma appends_only_bind {A B} (m : M A) (f : A -> M B) :
  appends_only m -> (forall a, appends_only (f a)) -> appends_only (bind m f).
Proof.
  intros Hm Hf w. unfold bind. destruct (Hm w) as [l1 H1].
  destruct (m w) as [[a | e | c] w1]; cbn [snd] in *.
  - destruct (Hf a w1) as [l2 H2]. exists (l1 ++ l2)%list.
    now rewrite H2, H1, app_assoc.
  - now exists l1.
  - now exists l1.
Qed.

(** [write_log] opens the file to append: what was there stays, one entry
    is added. *)
Lemma write_log_appends (event : string) (w : world) :
  w_log (snd (write_log event w)) =
  (w_log w ++ [(str_datetime (w_clock w (w_ticks w)) ++ ": " ++ tab ++ " " ++ event)%string])%list.
Proof. reflexivity. Qed.

Lemma appends_only_write_log (event : string) : appends_only (write_log event).
Proof. intro w. eexists. apply write_log_appends. Qed.

Create HintDb appends.
#[local] Hint Resolve appends_only_ret appends_only_raise appends_only_exit
  appends_only_lift appends_only_print appends_only_now appends_only_write_log : appends.

Ltac appends :=
  repeat first
    [ solve [auto with appends]
    | apply appends_only_bind; [ | intro ] ].

Lemma appends_only_tally (commits : list json) (dct : list (py_key * Z)) :
  appends_only (tally_authors commits dct).
Proof.
  revert dct. induction commits as [| commit rest IH]; intro dct; cbn [tally_authors].
  - auto with appends.
  - destruct (author_login commit); [apply IH | ]. appends.
Qed.

Lemma appends_only_print_rows (top_authors : list (py_key * Z)) :
  appends_only (print_rows top_authors).
Proof.
  induction top_authors as [| author rest IH]; cbn [print_rows]; appends.
Qed.

#[local] Hint Resolve appends_only_tally appends_only_print_rows : appends.

Lemma appends_only_get_top_authors (data : json) (b e : datetime) (n : Z) :
  appends_only (get_top_authors data b e n).
Proof.
  unfold get_top_authors. appends.
  match goal with |- appends_only (if ?c then _ else _) => destruct c end.
  - appends.
  - appends.
Qed.

Lemma appends_only_get_count_old (format_exc : exn -> string) (data : json) (days : Z) :
  appends_only (get_count_old format_exc data days).
Proof.
  unfold get_count_old. appends.
  match goal with |- appends_only (match ?r with _ => _ end) => destruct r end; appends.
Qed.

Lemma appends_only_get_data (url branch username password : string) :
  appends_only (get_data url branch username password).
Proof.
  unfold get_data. cbv zeta.
  apply appends_only_bind.
  - intro w. exists []. unfold requests_get. rewrite app_nil_r.
    destruct (w_net w) as [| [r | e] net]; reflexivity.
  - intro res. destruct (r_ok res); appends.
    intro w. exists []. rewrite app_nil_r.
    match goal with
    | |- context [follow_links ?n ?s ?p ?a ?r ?d] =>
        destruct (follow_links n s p a r d) as [o [net sent]]
    end.
    reflexivity.
Qed.

(** * Records with missing fields *)

Lemma log_after_count_objects (data : list json) (log : list string) :
  Forall (fun row => exists d, row = JObj d) data ->
  log_after_count data log = if existsb state_missing data then ["'state'"] else log.
Proof.
  intro H. revert log. induction H as [| row data [d ->] _ IH]; intro log; [reflexivity | ].
  cbn [log_after_count existsb]. unfold state_missing at 1. cbn [subscript].
  destruct (dict_get String.eqb "state" d) as [st | ].
  - cbn [orb]. apply IH.
  - cbn [orb]. rewrite IH. now destruct (existsb state_missing data).
Qed.

Lemma filtered_rows_are_objects (key : string) (rows : list json) (b e : datetime) :
  Forall (fun row => exists d, row = JObj d)
         (filter (row_in_window (fun r => subscript r key) b e) rows).
Proof.
  apply Forall_forall. intros row Hin. apply filter_In in Hin. destruct Hin as [_ Hin].
  unfold row_in_window in Hin.
  destruct (row_time (fun r => subscript r key) row) as [t | x] eqn:Ht; [ | discriminate Hin].
  exact (row_time_object key row t Ht).
Qed.

(** What the State Counter leaves in error.log. *)
Lemma get_count_log (raw_data : json) (rows data : list json) (b e : datetime) (w : world) :
  py_iter raw_data = Ok rows ->
  window_filter created_at rows b e = Ok data ->
  w_log (snd (get_count raw_data b e w)) =
  if existsb state_missing data then ["'state'"] else w_log w.
Proof.
  intros Hit Hf. rewrite (get_count_spec raw_data rows data b e w Hit Hf). cbn [snd].
  pose proof (window_filter_is_filter created_at rows data b e Hf) as ->.
  change (w_log (set_log ?l w)) with l.
  apply log_after_count_objects. apply (filtered_rows_are_objects "created_at").
Qed.

Lemma count_where_with_state (s : string) (data : list json) :
  count_where (state_is s) (filter (fun row => negb (state_missing row)) data) =
  count_where (state_is s) data.
Proof.
  induction data as [| row data IH]; [reflexivity | ].
  cbn [filter count_where]. unfold state_missing at 1. unfold state_is at 2.
  destruct (subscript row "state") as [st | x] eqn:Hs; cbn [negb].
  - cbn [count_where]. unfold state_is at 1. now rewrite Hs, IH.
  - now rewrite IH.
Qed.

Lemma dict_set_keys {V} (P : py_key -> Prop) (k : py_key) (v : V) (d : list (py_key * V)) :
  P k -> Forall (fun kc => P (fst kc)) d ->
  Forall (fun kc => P (fst kc)) (dict_set key_eqb k v d).
Proof.
  intros Hk Hd. induction Hd as [| [k' v'] d Hk' Hd IH]; cbn [dict_set].
  - now repeat constructor.
  - destruct (key_eqb k k'); constructor; auto.
Qed.

Lemma pure_tally_keys (P : py_key -> Prop) (commits : list json) (dct : list (py_key * Z)) :
  Forall (fun c => forall k, author_login c = Ok k -> P k) commits ->
  Forall (fun kc => P (fst kc)) dct ->
  Forall (fun kc => P (fst kc)) (pure_tally commits dct).
Proof.
  intro H. revert dct. induction H as [| c commits Hc _ IH]; intros dct Hd; [exact Hd | ].
  cbn [pure_tally]. destruct (author_login c) as [k | x]; [ | now apply IH].
  apply IH. unfold tally_one.
  destruct (dict_get key_eqb k dct); apply dict_set_keys; auto.
Qed.

Lemma insert_desc_Forall {K} (P : K * Z -> Prop) (x : K * Z) (l : list (K * Z)) :
  P x -> Forall P l -> Forall P (insert_desc x l).
Proof.
  intros Hx Hl. induction Hl as [| y l Hy Hl IH]; cbn [insert_desc].
  - now repeat constructor.
  - destruct (snd y <=? snd x); repeat constructor; auto.
Qed.

Lemma most_common_Forall {K} (P : K * Z -> Prop) (n : Z) (d : list (K * Z)) :
  Forall P d -> Forall P (most_common n d).
Proof.
  intro H. unfold most_common.
  assert (Hs : Forall P (sort_desc d)).
  { induction H as [| x d Hx _ IH]; [constructor | ]. cbn [sort_desc].
    now apply insert_desc_Forall. }
  revert Hs. generalize (sort_desc d). generalize (Z.to_nat n).
  intros m. induction m as [| m IH]; intros l Hl; [constructor | ].
  destruct Hl; cbn [firstn]; constructor; auto.
Qed.

Lemma printed_rows_ok (top_authors : list (py_key * Z)) :
  Forall (fun kc => key_printable (fst kc) = true) top_authors ->
  snd (printed_rows top_authors) = Ok tt.
Proof.
  induction 1 as [| [k c] rest Hk _ IH]; [reflexivity | ].
  cbn [printed_rows fst snd] in *.
  destruct k; try discriminate Hk; cbn [format_row];
    destruct (printed_rows rest) as [ls r]; exact IH.
Qed.

(** C2 (as the code has it).  When every record carries a timestamp the
    normalizer accepts: the Top-Author Aggregator passes over each commit of
    the window whose author login cannot be read, appends one entry to
    error.log for it and ends normally with the table of the remaining
    commits (no login being null); the State Counter passes over each record
    of the window without a state, leaves the text of the exception in
    error.log and returns the counts of the remaining records. *)
Theorem skip_and_log (begin end_ : datetime) (w : world) :
  (forall data rows top_count,
      py_iter data = Ok rows ->
      Forall (fun row => exists t, row_time author_date row = Ok t) rows ->
      Forall (fun row => author_login row <> Ok KNone) rows ->
      let commits := filter (row_in_window author_date begin end_) rows in
      let top_authors :=
        most_common top_count (pure_tally (filter login_readable commits) []) in
      exists w',
        get_top_authors data begin end_ top_count w = (Ret None, w') /\
        snd (printed_rows top_authors) = Ok tt /\
        w_out w' = (w_out w ++ [table_header ++ nl; table_rule ++ nl]%string
                    ++ fst (printed_rows top_authors))%list /\
        exists entries,
          w_log w' = (w_log w ++ entries)%list /\
          Z.of_nat (List.length entries) =
            count_where (fun c => negb (login_readable c)) commits) /\
  (forall raw_data rows,
      py_iter raw_data = Ok rows ->
      Forall (fun row => exists t, row_time created_at row = Ok t) rows ->
      let data := filter (row_in_window created_at begin end_) rows in
      let counted := filter (fun row => negb (state_missing row)) data in
      exists w',
        get_count raw_data begin end_ w =
          (Ret [("open", count_where (state_is "open") counted);
                ("closed", count_where (state_is "closed") counted)], w') /\
        (existsb state_missing data = true -> w_log w' = ["'state'"])).
Proof.
  split.
  - intros data rows n Hit Hrows Hnone commits top_authors.
    pose proof (window_filter_total author_date rows begin end_ Hrows) as Hf.
    fold commits in Hf.
    assert (Hok : snd (printed_rows top_authors) = Ok tt).
    { apply printed_rows_ok. apply most_common_Forall.
      apply (pure_tally_keys (fun k => key_printable k = true)); [ | constructor].
      apply Forall_forall. intros c Hc k Hk.
      apply filter_In in Hc. destruct Hc as [Hc _].
      apply filter_In in Hc. destruct Hc as [Hc _].
      rewrite Forall_forall in Hnone. specialize (Hnone c Hc).
      destruct k; [congruence | reflexivity | reflexivity]. }
    eexists. rewrite (get_top_authors_spec data rows commits begin end_ n w Hit Hf).
    rewrite (pure_tally_readable commits). fold top_authors. rewrite Hok.
    split; [reflexivity | ]. split; [reflexivity | ]. cbn [w_out w_log set_out set_ticks set_log].
    split; [reflexivity | ].
    eexists. split; [reflexivity | ]. apply tally_entries_length.
  - intros raw_data rows Hit Hrows data counted.
    pose proof (window_filter_total created_at rows begin end_ Hrows) as Hf.
    fold data in Hf.
    eexists. split.
    + rewrite (get_count_spec raw_data rows data begin end_ w Hit Hf).
      unfold counted. now rewrite !count_where_with_state.
    + intro Hm. cbn [w_log set_log].
      pose proof (get_count_log raw_data rows data begin end_ w Hit Hf) as Hl.
      rewrite (get_count_spec raw_data rows data begin end_ w Hit Hf) in Hl.
      cbn [snd w_log set_log] in Hl. now rewrite Hl, Hm.
Qed.

Lemma skip_and_log_witness :
  (exists w',
      get_top_authors
        (JArr [commit_by "alice" T0; commit_without_author T0; commit_by "alice" T0])
        year_2020_begin year_2020_end 30 w0 = (Ret None, w') /\
      w_out w' = [table_header ++ nl; table_rule ++ nl; "       alice        |    2" ++ nl]
      /\ List.length (w_log w') = 1%nat) /\
  (exists w',
      get_count (JArr sample_pulls) year_2020_begin year_2020_end w0 =
        (Ret [("open", 1); ("closed", 1)], w') /\
      w_log w' = ["'state'"]).
Proof.
  split.
  - destruct (proj1 (skip_and_log year_2020_begin year_2020_end w0)
                (JArr [commit_by "alice" T0; commit_without_author T0; commit_by "alice" T0])
                [commit_by "alice" T0; commit_without_author T0; commit_by "alice" T0]
                30 eq_refl)
      as (w' & Hrun & _ & Hout & entries & Hlog & Hlen).
    + repeat constructor; eexists; reflexivity.
    + repeat constructor; discriminate.
    + exists w'. split; [exact Hrun | ]. split; [exact Hout | ].
      rewrite Hlog. cbn [w_log w0 app]. apply Nat2Z.inj. rewrite Hlen. reflexivity.
  - destruct (proj2 (skip_and_log year_2020_begin year_2020_end w0)
                (JArr sample_pulls) sample_pulls eq_refl)
      as (w' & Hrun & Hlog).
    + repeat constructor; eexists; reflexivity.
    + exists w'. split; [exact Hrun | ]. apply Hlog. reflexivity.
Defined.

(** A record without creation timestamp is not passed over: the exception
    leaves the State Counter and nothing is logged; and the Staleness Counter
    gives no count at all when a record has no state. *)
Lemma missing_field_not_skipped :
  get_count (JArr [JObj [("state", JStr "open")]; item_in_state "open" T0])
            year_2020_begin year_2020_end w0
    = (Raise (KeyError "created_at"), w0) /\
  fst (get_count_old sample_format_exc
         (JArr [item_without_state "2019-01-01T00:00:00Z";
                item_in_state "open" "2019-01-01T00:00:00Z"]) 14 w0)
    = Ret None.
Proof. split; reflexivity. Qed.

(** C9 (as the code has it).  The State Counter leaves in error.log the text
    of the exception alone, all earlier content gone, as soon as a record of
    the window has no state; a state that is present, whatever its value,
    writes nothing.  [write_log] adds one entry after what the file holds,
    and the fetcher, the Top-Author Aggregator and the Staleness Counter
    only ever add to the file. *)
Theorem log_overwritten_only_on_missing_state :
  (forall raw_data rows data begin end_ w,
      py_iter raw_data = Ok rows ->
      window_filter created_at rows begin end_ = Ok data ->
      w_log (snd (get_count raw_data begin end_ w)) =
      if existsb state_missing data then ["'state'"] else w_log w) /\
  (forall event w,
      w_log (snd (write_log event w)) =
      (w_log w ++ [(str_datetime (w_clock w (w_ticks w)) ++ ": " ++ tab ++ " " ++ event)%string])%list) /\
  (forall data begin end_ top_count, appends_only (get_top_authors data begin end_ top_count)) /\
  (forall format_exc data days_to_old, appends_only (get_count_old format_exc data days_to_old)) /\
  (forall url branch username password, appends_only (get_data url branch username password)).
Proof.
  split; [exact get_count_log | ].
  split; [exact write_log_appends | ].
  split; [exact appends_only_get_top_authors | ].
  split; [exact appends_only_get_count_old | exact appends_only_get_data].
Qed.

Lemma log_overwritten_only_on_missing_state_witness :
  w_log (snd (get_count (JArr sample_pulls) year_2020_begin year_2020_end
                (set_log ["earlier entry"] w0))) = ["'state'"].
Proof.
  apply (proj1 log_overwritten_only_on_missing_state (JArr sample_pulls) sample_pulls
           (filter (row_in_window created_at year_2020_begin year_2020_end) sample_pulls)
           year_2020_begin year_2020_end (set_log ["earlier entry"] w0) eq_refl eq_refl).
Defined.

(** A record in a state of another name is left out of both counts and
    nothing at all is written: error.log still holds what it held. *)
Lemma unexpected_state_not_logged :
  get_count (JArr [item_in_state "merged" T0]) year_2020_begin year_2020_end
            (set_log ["earlier entry"] w0)
  = (Ret [("open", 0); ("closed", 0)], set_log ["earlier entry"] w0).
Proof. reflexivity. Qed.

(** * The Paginated Fetcher *)

(** [get_data] when the first response is a failure. *)
Lemma get_data_on_failure (url branch username password : string) (w : world)
    (res : response) (net : list (result response)) :
  w_net w = Ok res :: net ->
  r_ok res = false ->
  exists w',
    get_data url branch username password w = (Exit 1, w') /\
    w_log w' = (w_log w ++
                [(str_datetime (w_clock w (w_ticks w)) ++ ": " ++ tab ++ " "
                  ++ (r_url res ++ ": " ++ str_int (r_status res) ++ nl))%string])%list /\
    w_out w' = (w_out w ++ [("Getting data by URL failed. See error.log" ++ nl)%string])%list /\
    w_net w' = net /\
    List.length (w_sent w') = S (List.length (w_sent w)).
Proof.
  intros Hnet Hok.
  unfold get_data. cbv zeta. unfold bind at 1, requests_get at 1. rewrite Hnet, Hok.
  eexists. split; [reflexivity | ]. cbn.
  repeat split. rewrite length_app. cbn. lia.
Qed.

(** C6.  When the first response of a fetch has a status in 400..599,
    [get_data] prints its message, appends to error.log one entry made of
    the URL of the response, a colon and the status code, and leaves through
    [sys.exit(1)]: no data is returned and no further request is sent.  The
    handler of [main] does not stop this exit, so that a run whose first
    fetch fails ends with code 1 and this entry in error.log. *)
Theorem failed_fetch_exits (url branch username password : string) (w : world)
    (res : response) (net : list (result response)) :
  w_net w = Ok res :: net ->
  r_ok res = false ->
  (exists w',
      get_data url branch username password w = (Exit 1, w') /\
      w_log w' = (w_log w ++
                  [(str_datetime (w_clock w (w_ticks w)) ++ ": " ++ tab ++ " "
                    ++ (r_url res ++ ": " ++ str_int (r_status res) ++ nl))%string])%list /\
      w_out w' = (w_out w ++ [("Getting data by URL failed. See error.log" ++ nl)%string])%list /\
      w_net w' = net /\
      List.length (w_sent w') = S (List.length (w_sent w))) /\
  (forall format_exc repo date_begin date_end ref start code stop,
      get_stat_repo format_exc repo date_begin date_end ref start = (Exit code, stop) ->
      main format_exc repo date_begin date_end ref start = (Exit code, stop)) /\
  (forall format_exc repo date_begin date_end ref b e owner name login secret typed,
      convert_string_to_iso_date (JStr date_begin) = Ok b ->
      convert_string_to_iso_date (JStr date_end) = Ok e ->
      lastn 2 (split "/" repo) = [owner; name] ->
      w_typed w = login :: secret :: typed ->
      exists w',
        main format_exc repo date_begin date_end ref w = (Exit 1, w') /\
        w_log w' = (w_log w ++
                    [(str_datetime (w_clock w (w_ticks w)) ++ ": " ++ tab ++ " "
                      ++ (r_url res ++ ": " ++ str_int (r_status res) ++ nl))%string])%list).
Proof.
  intros Hnet Hok. split; [ | split].
  - now apply get_data_on_failure.
  - intros format_exc repo db de ref start code stop H. unfold main. now rewrite H.
  - intros format_exc repo db de ref b e owner name login secret typed Hb He Hrepo Htyped.
    unfold main, get_stat_repo. cbv zeta. rewrite Hrepo.
    unfold bind at 1. rewrite Hb. cbn [lift]. unfold ret at 1.
    unfold bind at 1. rewrite He. cbn [lift]. unfold ret at 1.
    unfold bind at 1. unfold ret at 1.
    unfold bind at 1, input at 1. rewrite Htyped.
    unfold bind at 1, getpass at 1. cbn [w_typed set_typed set_out].
    unfold bind at 1.
    match goal with
    | |- context [get_data ?u ?br ?us ?pw ?w1] =>
        destruct (get_data_on_failure u br us pw w1 res net Hnet Hok)
          as (w' & Hrun & Hlog & _)
    end.
    rewrite Hrun. exists w'. split; [reflexivity | exact Hlog].
Qed.

Lemma failed_fetch_exits_witness :
  exists w',
    get_data "https://api.github.com/repos/a/b/pulls" "master" "user" "secret"
      (set_net [page 404 None (JObj [("message", JStr "Not Found")])] [] w0) = (Exit 1, w') /\
    w_log w' =
      [("2026-11-03 10:00:00.000005: " ++ tab
        ++ " https://api.github.com/repos/a/b/pulls?state=all&base=master: 404" ++ nl)%string].
Proof.
  destruct (proj1 (failed_fetch_exits "https://api.github.com/repos/a/b/pulls" "master"
                     "user" "secret"
                     (set_net [page 404 None (JObj [("message", JStr "Not Found")])] [] w0)
                     _ _ eq_refl eq_refl))
    as (w' & Hrun & Hlog & _).
  exists w'. split; [exact Hrun | exact Hlog].
Defined.

(** Of the last response the loop reads the link to the next page only. *)
Lemma follow_links_next (net : list (result response)) (sent : list request)
    (params : list (string * string)) (auth : string * string) (res res2 : response)
    (data : json) :
  r_next res = r_next res2 ->
  follow_links net sent params auth res data = follow_links net sent params auth res2 data.
Proof. intro H. destruct net; cbn [follow_links]; now rewrite H. Qed.

(** The loop never ends the process. *)
Lemma follow_links_no_exit (net : list (result response)) (sent : list request)
    (params : list (string * string)) (auth : string * string) (res : response)
    (data : json) (code : Z) :
  fst (follow_links net sent params auth res data) <> Exit code.
Proof.
  revert sent res data. induction net as [| x net IH]; intros sent res data;
    cbn [follow_links].
  - destruct (r_next res); discriminate.
  - destruct (r_next res); [ | discriminate].
    destruct x as [r' | e]; [ | discriminate].
    destruct data; try discriminate.
    destruct (page <- r_json r';; py_iter page)%result; [apply IH | discriminate].
Qed.

(** The loop of the fetcher never reads a status code. *)
Lemma follow_links_status_blind (g : response -> Z) (net : list (result response))
    (sent : list request) (params : list (string * string)) (auth : string * string)
    (res : response) (data : json) :
  follow_links (map (with_status g) net) sent params auth res data =
  let '(o, (rest, sent')) := follow_links net sent params auth res data in
  (o, (map (with_status g) rest, sent')).
Proof.
  revert sent res data. induction net as [| a net IH]; intros sent res data.
  - cbn [map follow_links]. now destruct (r_next res).
  - cbn [map follow_links]. destruct (r_next res) as [next_url | ]; [ | reflexivity].
    destruct a as [res' | e]; cbn [with_status]; [ | reflexivity].
    destruct data; try reflexivity. cbn [r_json].
    destruct (page <- r_json res';; py_iter page)%result as [its | e]; [ | reflexivity].
    rewrite <- IH. now apply follow_links_next.
Qed.

(** C10.  In the loop of the fetcher a follow-up response is taken
    whatever its status: its body is decoded and what it iterates to is
    added to the data, and the loop goes on from that response.  Changing the
    status codes of the follow-up responses changes nothing in what the loop
    returns.  Once the first response is a success, [get_data] writes
    nothing to error.log or to standard output and never leaves through
    [sys.exit]. *)
Theorem follow_up_status_unchecked :
  (forall net sent params auth res l next_url res' body items,
      r_next res = Some next_url ->
      r_json res' = Ok body ->
      py_iter body = Ok items ->
      follow_links (Ok res' :: net) sent params auth res (JArr l) =
      follow_links net (sent ++ [mkRequest next_url params auth]) params auth res'
        (JArr (l ++ items))) /\
  (forall g net sent params auth res data,
      fst (follow_links (map (with_status g) net) sent params auth res data) =
      fst (follow_links net sent params auth res data)) /\
  (forall url branch username password w res net,
      w_net w = Ok res :: net ->
      r_ok res = true ->
      let '(o, w') := get_data url branch username password w in
      w_log w' = w_log w /\ w_out w' = w_out w /\ forall code, o <> Exit code).
Proof.
  split; [ | split].
  - intros net sent params auth res l next_url res' body items Hnext Hjson Hiter.
    cbn [follow_links]. rewrite Hnext, Hjson. cbn [rbind]. now rewrite Hiter.
  - intros g net sent params auth res data. rewrite follow_links_status_blind.
    now destruct (follow_links net sent params auth res data) as [o [rest sent']].
  - intros url branch username password w res net Hnet Hok.
    unfold get_data. cbv zeta. unfold bind at 1, requests_get at 1. rewrite Hnet, Hok.
    unfold bind. destruct (r_json res) as [data | e]; cbn [lift].
    + unfold ret.
      match goal with
      | |- context [follow_links ?n ?s ?p ?a ?r ?d] =>
          pose proof (follow_links_no_exit n s p a r d) as Hne;
          destruct (follow_links n s p a r d) as [o [rest sent']]
      end.
      repeat split. intro code. apply Hne.
    + unfold raise. repeat split. discriminate.
Qed.

Lemma follow_up_status_unchecked_witness :
  get_data "https://api.github.com/repos/a/b/pulls" "master" "user" "secret"
    (set_net [page 200 (Some "https://api.github.com/repositories/1/pulls?page=2")
                (JArr [item_in_state "open" T0]);
              page 500 None (JObj [("message", JStr "Server Error")])] [] w0)
  = (Ret (JArr [item_in_state "open" T0; JStr "message"]),
     set_net [] [mkRequest "https://api.github.com/repos/a/b/pulls"
                   [("state", "all"); ("base", "master")] ("user", "secret");
                 mkRequest "https://api.github.com/repositories/1/pulls?page=2"
                   [("state", "all"); ("base", "master")] ("user", "secret")] w0) /\
  follow_links [page 500 None (JObj [("message", JStr "Server Error")])] []
    [] ("user", "secret")
    (mkResponse 200 "u" (Ok (JArr [])) (Some "next")) (JArr [JInt 1])
  = follow_links [] ([] ++ [mkRequest "next" [] ("user", "secret")]) [] ("user", "secret")
      (mkResponse 500 "https://api.github.com/repos/a/b/pulls?state=all&base=master"
         (Ok (JObj [("message", JStr "Server Error")])) None)
      (JArr ([JInt 1] ++ [JStr "message"])).
Proof.
  split; [reflexivity | ].
  apply (proj1 follow_up_status_unchecked [] [] [] ("user", "secret")
           (mkResponse 200 "u" (Ok (JArr [])) (Some "next")) [JInt 1] "next"
           (mkResponse 500 "https://api.github.com/repos/a/b/pulls?state=all&base=master"
              (Ok (JObj [("message", JStr "Server Error")])) None)
           (JObj [("message", JStr "Server Error")]) [JStr "message"]);
    reflexivity.
Defined.

(** * The calendar *)

Lemma in_zrange (lo x : Z) (n : nat) : lo <= x < lo + Z.of_nat n -> In x (zrange lo n).
Proof.
  intro H. unfold zrange. apply in_map_iff. exists (Z.to_nat (x - lo)).
  split; [lia | ]. apply in_seq. lia.
Qed.

Lemma forallb_zrange (f : Z -> bool) (lo : Z) (n : nat) :
  forallb f (zrange lo n) = true ->
  forall x, lo <= x < lo + Z.of_nat n -> f x = true.
Proof.
  intros H x Hx. rewrite forallb_forall in H. apply H. now apply in_zrange.
Qed.

(** Every date of the years 1..400, by computation. *)
Lemma first_cycle_checked :
  forallb (fun y =>
    forallb (fun m =>
      forallb (check_date y m) (zrange 1 (Z.to_nat (days_in_month y m))))
      (zrange 1 12))
    (zrange 1 400) = true.
Proof. vm_cast_no_check (eq_refl true). Qed.

Lemma check_date_first_cycle (y m d : Z) :
  1 <= y <= 400 -> 1 <= m <= 12 -> 1 <= d <= days_in_month y m ->
  check_date y m d = true.
Proof.
  intros Hy Hm Hd.
  apply (forallb_zrange (check_date y m) 1 (Z.to_nat (days_in_month y m)));
    [ | rewrite Z2Nat.id by lia; lia].
  apply (forallb_zrange
           (fun m => forallb (check_date y m) (zrange 1 (Z.to_nat (days_in_month y m))))
           1 12); [ | change (Z.of_nat 12) with 12; lia].
  apply (forallb_zrange
           (fun y => forallb (fun m =>
              forallb (check_date y m) (zrange 1 (Z.to_nat (days_in_month y m))))
              (zrange 1 12))
           1 400 first_cycle_checked).
  change (Z.of_nat 400) with 400. lia.
Qed.

Lemma is_leap_period (y : Z) : is_leap (y + 400) = is_leap y.
Proof.
  unfold is_leap.
  replace ((y + 400) mod 4) with (y mod 4) by (Z.div_mod_to_equations; lia).
  replace ((y + 400) mod 100) with (y mod 100) by (Z.div_mod_to_equations; lia).
  replace ((y + 400) mod 400) with (y mod 400) by (Z.div_mod_to_equations; lia).
  reflexivity.
Qed.

Lemma days_in_month_period (y m : Z) : days_in_month (y + 400) m = days_in_month y m.
Proof. unfold days_in_month. now rewrite is_leap_period. Qed.

Lemma ymd2ord_period (y m d : Z) : ymd2ord (y + 400) m d = ymd2ord y m d + DI400Y.
Proof.
  unfold ymd2ord, days_before_month, days_before_year, DI400Y. rewrite is_leap_period.
  cbv zeta. Z.div_mod_to_equations. lia.
Qed.

Lemma ord2ymd_period (n : Z) :
  ord2ymd (n + DI400Y) = let '(y, m, d) := ord2ymd n in (y + 400, m, d).
Proof.
  unfold ord2ymd. cbv zeta.
  replace ((n + DI400Y - 1) / DI400Y) with ((n - 1) / DI400Y + 1)
    by (unfold DI400Y; Z.div_mod_to_equations; lia).
  replace ((n + DI400Y - 1) mod DI400Y) with ((n - 1) mod DI400Y)
    by (unfold DI400Y; Z.div_mod_to_equations; lia).
  repeat match goal with
         | |- context [if ?c then _ else _] => destruct c
         end; f_equal; try f_equal; lia.
Qed.

Lemma ymd2ord_periods (k : nat) (y m d : Z) :
  ymd2ord (y + 400 * Z.of_nat k) m d = ymd2ord y m d + DI400Y * Z.of_nat k
  /\ days_in_month (y + 400 * Z.of_nat k) m = days_in_month y m.
Proof.
  induction k as [| k [IH1 IH2]].
  - rewrite !Z.mul_0_r, !Z.add_0_r. now split.
  - replace (y + 400 * Z.of_nat (S k)) with (y + 400 * Z.of_nat k + 400) by lia.
    rewrite ymd2ord_period, days_in_month_period, IH1, IH2. split; [lia | reflexivity].
Qed.

Lemma ord2ymd_periods (k : nat) (n : Z) :
  ord2ymd (n + DI400Y * Z.of_nat k) =
  let '(y, m, d) := ord2ymd n in (y + 400 * Z.of_nat k, m, d).
Proof.
  induction k as [| k IH].
  - rewrite !Z.mul_0_r, !Z.add_0_r. destruct (ord2ymd n) as [[y m] d].
    now rewrite Z.add_0_r.
  - replace (n + DI400Y * Z.of_nat (S k)) with (n + DI400Y * Z.of_nat k + DI400Y) by lia.
    rewrite ord2ymd_period, IH. destruct (ord2ymd n) as [[y m] d]. f_equal. f_equal. lia.
Qed.

Lemma check_date_true (y m d : Z) :
  check_date y m d = true ->
  ord2ymd (ymd2ord y m d) = (y, m, d) /\
  0 < ymd2ord y m d <= DI400Y /\
  (y < 400 -> ymd2ord y m d <= DI400Y - 366).
Proof.
  unfold check_date. generalize (ymd2ord y m d). intro o. cbv zeta.
  destruct (ord2ymd o) as [[y1 m1] d1]. intro Hc.
  repeat (apply andb_true_iff in Hc; destruct Hc as [Hc ?]).
  repeat match goal with
         | H : (_ =? _) = true |- _ => apply Z.eqb_eq in H
         | H : (_ <? _) = true |- _ => apply Z.ltb_lt in H
         | H : (_ <=? _) = true |- _ => apply Z.leb_le in H
         | H : (_ || _) = true |- _ => apply orb_true_iff in H
         end.
  subst. repeat split; try assumption.
  intro Hy. match goal with H : _ \/ _ |- _ => destruct H as [H | H] end;
    apply Z.leb_le in H; lia.
Qed.

(** The ordinal of a date of years 1..9999 is within range and names that
    date. *)
Lemma ord2ymd_ymd2ord (y m d : Z) :
  1 <= y <= 9999 -> 1 <= m <= 12 -> 1 <= d <= days_in_month y m ->
  ord2ymd (ymd2ord y m d) = (y, m, d) /\ 0 < ymd2ord y m d <= MAXORDINAL.
Proof.
  intros Hy Hm Hd.
  set (k := Z.to_nat ((y - 1) / 400)). set (y0 := (y - 1) mod 400 + 1).
  assert (Hk : y = y0 + 400 * Z.of_nat k).
  { unfold k, y0. rewrite Z2Nat.id by (Z.div_mod_to_equations; lia).
    Z.div_mod_to_equations. lia. }
  assert (Hy0 : 1 <= y0 <= 400) by (unfold y0; Z.div_mod_to_equations; lia).
  clearbody k y0. subst y.
  destruct (ymd2ord_periods k y0 m d) as [Ho Hdim].
  rewrite Hdim in Hd. rewrite Ho.
  destruct (check_date_true y0 m d (check_date_first_cycle y0 m d Hy0 Hm Hd))
    as (Hr & Hb & Hlast).
  rewrite ord2ymd_periods, Hr. split; [reflexivity | ].
  revert Hb Hlast. generalize (ymd2ord y0 m d). intros o Hb Hlast.
  change MAXORDINAL with 3652059. change DI400Y with 146097 in *. lia.
Qed.

(** Zero days before a valid instant is the instant itself. *)
Lemma sub_days_zero (t : datetime) : valid_datetime t -> sub_days t 0 = Ok t.
Proof.
  intro H. unfold valid_datetime in H. apply datetime_new_inv in H.
  destruct H as (_ & Hy & Hm & Hd & _).
  destruct (ord2ymd_ymd2ord _ _ _ Hy Hm Hd) as [Hr Hb].
  unfold sub_days. cbn [Z.abs Z.ltb Z.compare]. rewrite Z.sub_0_r, Hr.
  replace (0 <? ymd2ord (year t) (month t) (day t)) with true by (symmetry; apply Z.ltb_lt; lia).
  replace (ymd2ord (year t) (month t) (day t) <=? MAXORDINAL) with true
    by (symmetry; apply Z.leb_le; lia).
  now destruct t.
Qed.

(** * The Staleness Counter *)

Lemma count_old_loop_spec (now limit : datetime) (days : Z) (rows : list json) (acc : Z) :
  Forall well_formed_item rows ->
  sub_days now days = Ok limit ->
  count_old_loop now days rows acc = Ok (acc + count_where (is_stale limit) rows).
Proof.
  intros Hrows Hlimit. revert acc.
  induction Hrows as [| row rows [[t Ht] Hst] _ IH]; intro acc.
  - cbn [count_old_loop count_where]. now rewrite Z.add_0_r.
  - cbn [count_old_loop count_where]. unfold is_stale at 1. rewrite Ht.
    unfold row_time in Ht.
    destruct (created_at row) as [v | x]; [cbn [rbind] in Ht |- * | discriminate Ht].
    rewrite Ht. cbn [rbind]. rewrite Hlimit. cbn [rbind].
    unfold state_missing in Hst. unfold state_is at 1.
    destruct (subscript row "state") as [st | x]; [ | discriminate Hst].
    cbn [rbind]. destruct (dt_leb t limit); cbn [andb].
    + destruct (py_eq_str st "open"); rewrite IH; f_equal; lia.
    + rewrite IH. f_equal.
Qed.

(** C7.  On well-formed records, with "now" the reading of the clock at
    the call and "now minus [days_to_old] days" an instant [limit], the
    Staleness Counter returns the number of records that are open and were
    created at [limit] or before; with threshold 0 these are the open records
    created at "now" or before. *)
Theorem stale_count (format_exc : exn -> string) (rows : list json) (days_to_old : Z)
    (w : world) :
  Forall well_formed_item rows ->
  (forall limit,
      sub_days (w_clock w (w_ticks w)) days_to_old = Ok limit ->
      get_count_old format_exc (JArr rows) days_to_old w =
      (Ret (Some (count_where (is_stale limit) rows)), set_ticks (S (w_ticks w)) w)) /\
  (valid_datetime (w_clock w (w_ticks w)) ->
      get_count_old format_exc (JArr rows) 0 w =
      (Ret (Some (count_where (is_stale (w_clock w (w_ticks w))) rows)),
       set_ticks (S (w_ticks w)) w)).
Proof.
  intro Hrows.
  assert (Hgen : forall days limit,
             sub_days (w_clock w (w_ticks w)) days = Ok limit ->
             get_count_old format_exc (JArr rows) days w =
             (Ret (Some (count_where (is_stale limit) rows)), set_ticks (S (w_ticks w)) w)).
  { intros days limit Hlimit. unfold get_count_old, bind, datetime_now. cbn [py_iter rbind].
    rewrite (count_old_loop_spec _ limit days rows 0 Hrows Hlimit). reflexivity. }
  split.
  - apply Hgen.
  - intro Hnow. apply Hgen. now apply sub_days_zero.
Qed.

Lemma stale_count_witness :
  get_count_old sample_format_exc
    (JArr [item_in_state "open" T0; item_in_state "closed" T0;
           item_in_state "open" "2026-11-03T09:00:00Z";
           item_in_state "open" "2026-11-03T11:00:00Z"]) 0 w0 =
  (Ret (Some 2), set_ticks 1 w0) /\
  get_count_old sample_format_exc
    (JArr [item_in_state "open" T0; item_in_state "closed" T0;
           item_in_state "open" "2026-10-25T09:00:00Z"]) 14 w0 =
  (Ret (Some 1), set_ticks 1 w0).
Proof.
  split.
  - apply (proj2 (stale_count sample_format_exc
                    [item_in_state "open" T0; item_in_state "closed" T0;
                     item_in_state "open" "2026-11-03T09:00:00Z";
                     item_in_state "open" "2026-11-03T11:00:00Z"] 0 w0
                    ltac:(repeat constructor; eexists; reflexivity))).
    reflexivity.
  - apply (proj1 (stale_count sample_format_exc
                    [item_in_state "open" T0; item_in_state "closed" T0;
                     item_in_state "open" "2026-10-25T09:00:00Z"] 14 w0
                    ltac:(repeat constructor; eexists; reflexivity))
             (mkdt 2026 10 20 10 0 0 5)).
    reflexivity.
Defined.

(** * More on the Paginated Fetcher *)

Lemma get_data_unfold (url branch username password : string) :
  get_data url branch username password =
  (res <- requests_get url (request_params url branch) (username, password) ;;
   if r_ok res then
     data <- lift (r_json res) ;;
     fun w =>
       let '(o, (net, sent)) :=
         follow_links (w_net w) (w_sent w) (request_params url branch)
           (username, password) res data in
       (o, set_net net sent w)
   else
     print "Getting data by URL failed. See error.log" ;;
     write_log (r_url res ++ ": " ++ str_int (r_status res) ++ nl) ;;
     sys_exit 1).
Proof. reflexivity. Qed.

Lemma follow_links_pages (rs : list response) (net : list (result response))
    (sent : list request) (params : list (string * string)) (auth : string * string)
    (res : response) (l items : list json) :
  linked_pages res rs = true ->
  pages_items rs = Some items ->
  follow_links (map Ok rs ++ net) sent params auth res (JArr l) =
  (Ret (JArr (l ++ items)), (net, (sent ++ link_requests params auth res rs)%list)).
Proof.
  revert sent res l items. induction rs as [| r rs IH]; intros sent res l items Hl Hi.
  - cbn [linked_pages] in Hl. cbn [pages_items] in Hi. injection Hi as <-.
    cbn [map app link_requests]. rewrite !app_nil_r.
    destruct (r_next res) eqn:Hn; [discriminate Hl | ].
    destruct net; cbn [follow_links]; now rewrite Hn.
  - cbn [linked_pages] in Hl. cbn [pages_items] in Hi.
    destruct (r_next res) as [next_url | ] eqn:Hn; [ | discriminate Hl].
    destruct (page_items r) as [its | x] eqn:Hp; [ | discriminate Hi].
    destruct (pages_items rs) as [more | ] eqn:Hm; [ | discriminate Hi].
    injection Hi as <-.
    cbn [map app follow_links link_requests]. rewrite Hn.
    unfold page_items in Hp. rewrite Hp.
    rewrite (IH _ r (l ++ its)%list more Hl eq_refl).
    now rewrite <- !app_assoc.
Qed.

(** X1.  When the first response is a success whose body is a list and the
    following pages are linked one to the next, each with a body that can be
    iterated, [get_data] returns the items of all pages in page order, sends
    one request per page and leaves the answers after the last page
    unread. *)
Theorem get_data_concatenates_pages (url branch username password : string) (w : world)
    (res : response) (rs : list response) (net : list (result response))
    (l items : list json) :
  w_net w = (Ok res :: map Ok rs ++ net)%list ->
  r_ok res = true ->
  r_json res = Ok (JArr l) ->
  linked_pages res rs = true ->
  pages_items rs = Some items ->
  get_data url branch username password w =
  (Ret (JArr (l ++ items)),
   set_net net
     (w_sent w ++ mkRequest url (request_params url branch) (username, password)
        :: link_requests (request_params url branch) (username, password) res rs) w).
Proof.
  intros Hnet Hok Hjson Hl Hi. rewrite get_data_unfold.
  unfold bind at 1, requests_get at 1. rewrite Hnet, Hok.
  unfold bind at 1. rewrite Hjson. cbn [lift]. unfold ret at 1.
  cbn [w_net w_sent set_net].
  rewrite (follow_links_pages rs net _ _ _ res l items Hl Hi).
  destruct w. unfold set_net. cbn. now rewrite <- app_assoc.
Qed.

Lemma get_data_concatenates_pages_witness :
  get_data "https://api.github.com/repos/a/b/issues" "master" "user" "secret"
    (set_net [page 200 (Some "p2") (JArr [JInt 1; JInt 2]);
              page 200 (Some "p3") (JArr [JInt 3]);
              page 200 None (JArr [JInt 4])] [] w0)
  = (Ret (JArr [JInt 1; JInt 2; JInt 3; JInt 4]),
     set_net [] [mkRequest "https://api.github.com/repos/a/b/issues" [("state", "all")]
                   ("user", "secret");
                 mkRequest "p2" [("state", "all")] ("user", "secret");
                 mkRequest "p3" [("state", "all")] ("user", "secret")] w0).
Proof.
  apply (get_data_concatenates_pages "https://api.github.com/repos/a/b/issues" "master"
           "user" "secret"
           (set_net [page 200 (Some "p2") (JArr [JInt 1; JInt 2]);
                     page 200 (Some "p3") (JArr [JInt 3]);
                     page 200 None (JArr [JInt 4])] [] w0)
           (mkResponse 200 "https://api.github.com/repos/a/b/pulls?state=all&base=master"
              (Ok (JArr [JInt 1; JInt 2])) (Some "p2"))
           [mkResponse 200 "https://api.github.com/repos/a/b/pulls?state=all&base=master"
              (Ok (JArr [JInt 3])) (Some "p3");
            mkResponse 200 "https://api.github.com/repos/a/b/pulls?state=all&base=master"
              (Ok (JArr [JInt 4])) None]
           [] [JInt 1; JInt 2] [JInt 3; JInt 4]); reflexivity.
Defined.

Lemma list_ascii_of_string_app (a b : string) :
  list_ascii_of_string (a ++ b) = (list_ascii_of_string a ++ list_ascii_of_string b)%list.
Proof. induction a as [| c a IH]; [reflexivity | ]. cbn. now rewrite IH. Qed.

Lemma split_on_not_nil (sep : ascii) (s : list ascii) : split_on sep s <> [].
Proof.
  destruct s as [| c s]; cbn [split_on]; [discriminate | ].
  destruct (Ascii.eqb c sep); [discriminate | ].
  destruct (split_on sep s); discriminate.
Qed.

Lemma split_on_no_sep (sep : ascii) (s : list ascii) :
  forallb (fun c => negb (Ascii.eqb c sep)) s = true -> split_on sep s = [s].
Proof.
  induction s as [| c s IH]; [reflexivity | ].
  cbn [forallb split_on]. intro H. apply andb_true_iff in H. destruct H as [Hc Hs].
  apply negb_true_iff in Hc. now rewrite Hc, (IH Hs).
Qed.

Lemma last_split_on_app (sep : ascii) (a b : list ascii) (d : list ascii) :
  last (split_on sep (a ++ sep :: b)) d = last (split_on sep b) d.
Proof.
  induction a as [| c a IH]; cbn [app split_on].
  - rewrite Ascii.eqb_refl. cbn [last].
    destruct (split_on sep b) eqn:Hb; [now apply split_on_not_nil in Hb | reflexivity].
  - destruct (Ascii.eqb c sep).
    + cbn [last]. destruct (split_on sep (a ++ sep :: b)) eqn:Hs;
        [now apply split_on_not_nil in Hs | exact IH].
    + destruct (split_on sep (a ++ sep :: b)) as [| h t] eqn:Hs;
        [now apply split_on_not_nil in Hs | ].
      destruct t as [| h2 t].
      * (* one segment only: impossible, the separator is there *)
        cbn [last] in IH |- *. exfalso.
        clear IH. revert h Hs. induction a as [| c2 a IHa]; intros h Hs.
        -- cbn [app split_on] in Hs. rewrite Ascii.eqb_refl in Hs.
           destruct (split_on sep b) eqn:Hb; [now apply split_on_not_nil in Hb | discriminate Hs].
        -- cbn [app split_on] in Hs. destruct (Ascii.eqb c2 sep).
           ++ destruct (split_on sep (a ++ sep :: b)) eqn:Hs2;
                [now apply split_on_not_nil in Hs2 | discriminate Hs].
           ++ destruct (split_on sep (a ++ sep :: b)) as [| h' t'] eqn:Hs2;
                [now apply split_on_not_nil in Hs2 | ].
              injection Hs as _ Ht. subst t'. now apply (IHa h').
      * cbn [last] in IH |- *. exact IH.
Qed.

Lemma lastn_1_last {A} (l : list A) (d : A) : l <> [] -> lastn 1 l = [last l d].
Proof.
  unfold lastn. induction l as [| x l IH]; [congruence | intros _].
  destruct l as [| y l]; [reflexivity | ].
  cbn [List.length] in IH |- *.
  replace (S (S (List.length l)) - 1)%nat with (S (S (List.length l) - 1))%nat by lia.
  cbn [skipn]. rewrite IH by discriminate. reflexivity.
Qed.

Lemma last_map {A B} (f : A -> B) (l : list A) (d : A) :
  last (map f l) (f d) = f (last l d).
Proof.
  induction l as [| x l IH]; [reflexivity | ].
  destruct l; [reflexivity | exact IH].
Qed.

(** The last segment of a URL that ends in a slash and a text without
    slash is that text. *)
Lemma last_segment (base seg : string) :
  no_slash seg = true ->
  hd "" (lastn 1 (split "/" (base ++ "/" ++ seg))) = seg.
Proof.
  intro H. unfold split.
  rewrite (lastn_1_last _ "") by (intro E; apply map_eq_nil in E; now apply split_on_not_nil in E).
  cbn [hd].
  match goal with
  | |- last (map string_of_list_ascii ?l) _ = _ =>
      change (last (map string_of_list_ascii l) (string_of_list_ascii []) = seg)
  end.
  rewrite last_map.
  rewrite list_ascii_of_string_app. change (list_ascii_of_string ("/" ++ seg))
    with ("/"%char :: list_ascii_of_string seg).
  rewrite last_split_on_app, (split_on_no_sep _ _ H). cbn [last].
  apply string_of_list_ascii_of_string.
Qed.

Lemma follow_links_requests (net : list (result response)) (sent : list request)
    (params : list (string * string)) (auth : string * string) (res : response)
    (data : json) :
  exists new,
    snd (snd (follow_links net sent params auth res data)) = (sent ++ new)%list /\
    Forall (fun q => q_params q = params /\ q_auth q = auth) new.
Proof.
  revert sent res data. induction net as [| a net IH]; intros sent res data;
    cbn [follow_links].
  - destruct (r_next res); cbn [snd].
    + eexists. split; [reflexivity | ]. now repeat constructor.
    + exists []. now rewrite app_nil_r.
  - destruct (r_next res) as [next_url | ]; cbn [snd];
      [ | exists []; now rewrite app_nil_r].
    destruct a as [res' | e]; cbn [snd];
      [ | eexists; split; [reflexivity | now repeat constructor]].
    destruct data; cbn [snd];
      try (eexists; split; [reflexivity | now repeat constructor]).
    destruct (page <- r_json res';; py_iter page)%result; cbn [snd];
      [ | eexists; split; [reflexivity | now repeat constructor]].
    destruct (IH (sent ++ [mkRequest next_url params auth])%list res' (JArr (items ++ a)%list))
      as (new & Hnew & Hall).
    exists (mkRequest next_url params auth :: new). split.
    + rewrite Hnew. now rewrite <- app_assoc.
    + constructor; [now split | exact Hall].
Qed.

Lemma get_data_sent (url branch username password : string) (w : world) :
  exists new,
    w_sent (snd (get_data url branch username password w)) =
      (w_sent w ++ mkRequest url (request_params url branch) (username, password) :: new)%list /\
    Forall (fun q => q_params q = request_params url branch /\
                     q_auth q = (username, password)) new.
Proof.
  rewrite get_data_unfold. unfold bind at 1, requests_get at 1.
  destruct (w_net w) as [| [res | e] net] eqn:Hnet;
    try (exists []; split; [reflexivity | constructor]).
  destruct (r_ok res).
  - unfold bind at 1. destruct (r_json res) as [data | e]; cbn [lift];
      [ | exists []; split; [reflexivity | constructor]].
    unfold ret at 1. cbn [w_net w_sent set_net].
    destruct (follow_links_requests net
                (w_sent w ++ [mkRequest url (request_params url branch) (username, password)])
                (request_params url branch) (username, password) res data)
      as (new & Hnew & Hall).
    destruct (follow_links net _ _ _ res data) as [o [rest sent']].
    cbn [snd] in Hnew |- *. subst sent'. exists new. split; [ | exact Hall].
    cbn [w_sent set_net]. now rewrite <- app_assoc.
  - exists []. split; [reflexivity | constructor].
Qed.

(** X2.  Whatever the server answers, the first request of a fetch goes to
    the URL given, and every request of the fetch, the follow-up requests
    included, carries the same credentials and the same query parameters.
    The parameters depend on the last segment of the URL alone: [commits]
    selects state=all and sha=branch, [pulls] state=all and base=branch,
    [issues] state=all, and any other segment no parameter at all. *)
Theorem fetch_requests (base kind branch username password : string) (w : world) :
  no_slash kind = true ->
  let url := base ++ "/" ++ kind in
  let params :=
    if String.eqb kind "commits" then [("state", "all"); ("sha", branch)]
    else if String.eqb kind "pulls" then [("state", "all"); ("base", branch)]
    else if String.eqb kind "issues" then [("state", "all")]
    else [] in
  exists new,
    w_sent (snd (get_data url branch username password w)) =
      (w_sent w ++ mkRequest url params (username, password) :: new)%list /\
    Forall (fun q => q_params q = params /\ q_auth q = (username, password)) new.
Proof.
  intros Hkind url params.
  assert (Hp : request_params url branch = params).
  { unfold request_params, url, params. cbv zeta. rewrite (last_segment base kind Hkind).
    destruct (String.eqb kind "commits") eqn:Hc.
    - apply String.eqb_eq in Hc. now subst kind.
    - destruct (String.eqb kind "pulls") eqn:Hpl.
      + apply String.eqb_eq in Hpl. now subst kind.
      + now destruct (String.eqb kind "issues"). }
  rewrite <- Hp. apply get_data_sent.
Qed.

Lemma fetch_requests_witness :
  exists new,
    w_sent (snd (get_data ("https://api.github.com/repos/a/b" ++ "/" ++ "pulls") "dev"
                   "user" "secret"
                   (set_net [page 200 (Some "p2") (JArr []); page 200 None (JArr [])] [] w0)))
    = ([] ++ mkRequest ("https://api.github.com/repos/a/b" ++ "/" ++ "pulls")
               [("state", "all"); ("base", "dev")] ("user", "secret") :: new)%list /\
    Forall (fun q => q_params q = [("state", "all"); ("base", "dev")] /\
                     q_auth q = ("user", "secret")) new.
Proof.
  apply (fetch_requests "https://api.github.com/repos/a/b" "pulls" "dev" "user" "secret"
           (set_net [page 200 (Some "p2") (JArr []); page 200 None (JArr [])] [] w0)).
  reflexivity.
Defined.

(** X3.  A first page without a link to a next page is returned as it was
    decoded, whatever it is, a list or not.  A first page that is not a list
    but names a next page ends the fetch with [AttributeError], after the
    request for that next page has been sent. *)
Theorem first_page_not_a_list (url branch username password : string) (w : world)
    (res : response) (net : list (result response)) (data : json) :
  w_net w = Ok res :: net ->
  r_ok res = true ->
  r_json res = Ok data ->
  (r_next res = None ->
   get_data url branch username password w =
   (Ret data,
    set_net net (w_sent w ++ [mkRequest url (request_params url branch) (username, password)]) w)) /\
  (forall next_url res' net',
      r_next res = Some next_url ->
      net = Ok res' :: net' ->
      (forall l, data <> JArr l) ->
      get_data url branch username password w =
      (Raise (AttributeError ("'" ++ type_name data ++ "' object has no attribute 'extend'")),
       set_net net'
         (w_sent w ++ [mkRequest url (request_params url branch) (username, password);
                       mkRequest next_url (request_params url branch) (username, password)]) w)).
Proof.
  intros Hnet Hok Hjson. split.
  - intro Hnext. rewrite get_data_unfold.
    unfold bind at 1, requests_get at 1. rewrite Hnet, Hok.
    unfold bind at 1. rewrite Hjson. cbn [lift]. unfold ret at 1.
    cbn [w_net w_sent set_net].
    destruct net; cbn [follow_links]; rewrite Hnext; reflexivity.
  - intros next_url res' net' Hnext -> Hdata. rewrite get_data_unfold.
    unfold bind at 1, requests_get at 1. rewrite Hnet, Hok.
    unfold bind at 1. rewrite Hjson. cbn [lift]. unfold ret at 1.
    cbn [w_net w_sent set_net follow_links]. rewrite Hnext.
    destruct data; try (destruct w; unfold set_net; cbn; now rewrite <- app_assoc).
    now destruct (Hdata items).
Qed.

Lemma first_page_not_a_list_witness :
  get_data "https://api.github.com/repos/a/b/commits" "master" "user" "secret"
    (set_net [page 200 None not_found_payload] [] w0)
  = (Ret not_found_payload,
     set_net [] ([] ++ [mkRequest "https://api.github.com/repos/a/b/commits"
                          (request_params "https://api.github.com/repos/a/b/commits" "master")
                          ("user", "secret")]) w0).
Proof.
  apply (proj1 (first_page_not_a_list "https://api.github.com/repos/a/b/commits" "master"
                  "user" "secret" (set_net [page 200 None not_found_payload] [] w0)
                  _ [] not_found_payload eq_refl eq_refl eq_refl)).
  reflexivity.
Defined.

(** * More on the aggregators *)

Lemma count_old_loop_bounds (now : datetime) (days : Z) (rows : list json) (acc n : Z) :
  count_old_loop now days rows acc = Ok n ->
  acc <= n <= acc + Z.of_nat (List.length rows).
Proof.
  revert acc. induction rows as [| row rows IH]; intros acc H.
  - injection H as <-. cbn. lia.
  - cbn [count_old_loop] in H. cbn [List.length]. rewrite Nat2Z.inj_succ.
    destruct (created_at row) as [v | x]; [cbn [rbind] in H | discriminate H].
    destruct (convert_string_to_iso_date v) as [t | x]; [cbn [rbind] in H | discriminate H].
    destruct (sub_days now days) as [limit | x]; [cbn [rbind] in H | discriminate H].
    destruct (dt_leb t limit).
    + destruct (subscript row "state") as [st | x]; [cbn [rbind] in H | discriminate H].
      destruct (py_eq_str st "open"); apply IH in H; lia.
    + apply IH in H. lia.
Qed.

(** X4.  The Staleness Counter never lets an exception out and never ends
    the process.  Either it returns a count, between 0 and the number of
    records, and leaves error.log as it was; or it returns [None] and has
    appended exactly one entry, the traceback, to error.log. *)
Theorem get_count_old_never_raises (format_exc : exn -> string) (data : json)
    (days_to_old : Z) (w : world) :
  (exists n rows,
      py_iter data = Ok rows /\
      0 <= n <= Z.of_nat (List.length rows) /\
      get_count_old format_exc data days_to_old w =
      (Ret (Some n), set_ticks (S (w_ticks w)) w)) \/
  (exists e w',
      get_count_old format_exc data days_to_old w = (Ret None, w') /\
      w_log w' =
        (w_log w ++ [(str_datetime (w_clock w (S (w_ticks w))) ++ ": " ++ tab ++ " "
                      ++ format_exc e)%string])%list /\
      w_out w' = w_out w).
Proof.
  unfold get_count_old, bind, datetime_now.
  destruct (py_iter data) as [rows | x] eqn:Hit; cbn [rbind].
  - destruct (count_old_loop (w_clock w (w_ticks w)) days_to_old rows 0) as [n | x] eqn:Hloop.
    + left. exists n, rows. apply count_old_loop_bounds in Hloop.
      split; [reflexivity | ]. split; [lia | reflexivity].
    + right. exists x. eexists. split; [reflexivity | ]. split; reflexivity.
  - right. exists x. eexists. split; [reflexivity | ]. split; reflexivity.
Qed.

Lemma count_where_perm {A} (f : A -> bool) (l l' : list A) :
  Permutation l l' -> count_where f l = count_where f l'.
Proof.
  induction 1 as [| x l l' _ IH | x y l | l l' l'' _ IH1 _ IH2]; cbn [count_where];
    [reflexivity | now rewrite IH | lia | now rewrite IH1].
Qed.

Lemma existsb_perm {A} (f : A -> bool) (l l' : list A) :
  Permutation l l' -> existsb f l = existsb f l'.
Proof.
  induction 1 as [| x l l' _ IH | x y l | l l' l'' _ IH1 _ IH2]; cbn [existsb];
    [reflexivity | now rewrite IH | now destruct (f x), (f y) | now rewrite IH1].
Qed.

Lemma filter_perm {A} (f : A -> bool) (l l' : list A) :
  Permutation l l' -> Permutation (filter f l) (filter f l').
Proof.
  induction 1 as [| x l l' _ IH | x y l | l l' l'' _ IH1 _ IH2]; cbn [filter].
  - constructor.
  - destruct (f x); [now constructor | exact IH].
  - destruct (f x), (f y); try apply Permutation_refl. apply perm_swap.
  - now apply Permutation_trans with (filter f l').
Qed.

(** X5.  The State Counter does not depend on the order of the records:
    given the same records in another order, every one with a creation
    timestamp the normalizer accepts, it returns the same counts and leaves
    the same content in error.log. *)
Theorem get_count_order_independent (rows rows' : list json) (begin end_ : datetime)
    (w : world) :
  Permutation rows rows' ->
  Forall (fun row => exists t, row_time created_at row = Ok t) rows ->
  get_count (JArr rows') begin end_ w = get_count (JArr rows) begin end_ w.
Proof.
  intros Hperm Hrows.
  assert (Hrows' : Forall (fun row => exists t, row_time created_at row = Ok t) rows').
  { rewrite Forall_forall in Hrows |- *. intros row Hin. apply Hrows.
    now apply (Permutation_in row (Permutation_sym Hperm)). }
  pose proof (window_filter_total created_at rows begin end_ Hrows) as Hf.
  pose proof (window_filter_total created_at rows' begin end_ Hrows') as Hf'.
  rewrite (get_count_spec (JArr rows) rows _ begin end_ w eq_refl Hf).
  rewrite (get_count_spec (JArr rows') rows' _ begin end_ w eq_refl Hf').
  pose proof (filter_perm (row_in_window created_at begin end_) rows rows' Hperm) as Hp.
  rewrite (count_where_perm (state_is "open") _ _ Hp).
  rewrite (count_where_perm (state_is "closed") _ _ Hp).
  rewrite !log_after_count_objects by apply (filtered_rows_are_objects "created_at").
  now rewrite (existsb_perm state_missing _ _ Hp).
Qed.

Lemma get_count_order_independent_witness :
  get_count (JArr (rev sample_pulls)) year_2020_begin year_2020_end w0 =
  get_count (JArr sample_pulls) year_2020_begin year_2020_end w0.
Proof.
  apply get_count_order_independent.
  - apply Permutation_rev.
  - repeat constructor; eexists; reflexivity.
Defined.

Lemma window_filter_first_error (stamp : json -> result json) (l1 l2 : list json) (r : json)
    (b e : datetime) (x : exn) :
  Forall (fun row => exists t, row_time stamp row = Ok t) l1 ->
  row_time stamp r = Err x ->
  window_filter stamp (l1 ++ r :: l2) b e = Err x.
Proof.
  intros Hl1 Hr. induction Hl1 as [| row l1 [t Ht] _ IH]; cbn [app].
  - now rewrite window_filter_cons, Hr.
  - now rewrite window_filter_cons, Ht, IH.
Qed.

(** X6.  A record whose timestamp cannot be read, because the field is
    missing, is not a string or is not in the format, ends both window
    filters: the exception of the first such record leaves the Top-Author
    Aggregator and the State Counter, which print nothing, write nothing to
    error.log and count nothing. *)
Theorem unreadable_timestamp_raises (l1 l2 : list json) (r : json) (begin end_ : datetime)
    (x : exn) (w : world) :
  (Forall (fun row => exists t, row_time author_date row = Ok t) l1 ->
   row_time author_date r = Err x ->
   forall top_count,
     get_top_authors (JArr (l1 ++ r :: l2)) begin end_ top_count w = (Raise x, w)) /\
  (Forall (fun row => exists t, row_time created_at row = Ok t) l1 ->
   row_time created_at r = Err x ->
   get_count (JArr (l1 ++ r :: l2)) begin end_ w = (Raise x, w)).
Proof.
  split.
  - intros Hl1 Hr n. unfold get_top_authors, bind. cbn [py_iter lift]. unfold ret at 1.
    now rewrite (window_filter_first_error author_date l1 l2 r begin end_ x Hl1 Hr).
  - intros Hl1 Hr. unfold get_count, bind. cbn [py_iter lift]. unfold ret at 1.
    now rewrite (window_filter_first_error created_at l1 l2 r begin end_ x Hl1 Hr).
Qed.

Lemma unreadable_timestamp_raises_witness :
  get_count (JArr ([item_in_state "open" T0] ++
                   item_in_state "open" "2020-06-01 12:00:00" :: [item_in_state "open" T0]))
            year_2020_begin year_2020_end w0 =
  (Raise (ValueError
            "time data '2020-06-01 12:00:00' does not match format '%Y-%m-%dT%H:%M:%SZ'"),
   w0).
Proof.
  apply (proj2 (unreadable_timestamp_raises [item_in_state "open" T0]
                  [item_in_state "open" T0] (item_in_state "open" "2020-06-01 12:00:00")
                  year_2020_begin year_2020_end _ w0)).
  - repeat constructor; eexists; reflexivity.
  - reflexivity.
Defined.

(** * The author tally and the ranking *)

Lemma key_eqb_eq (a b : py_key) : key_eqb a b = true <-> a = b.
Proof.
  destruct a, b; cbn; try (split; [discriminate | congruence]).
  - tauto.
  - rewrite Z.eqb_eq. split; congruence.
  - rewrite String.eqb_eq. split; congruence.
Qed.

Lemma key_eqb_refl (a : py_key) : key_eqb a a = true.
Proof. now apply key_eqb_eq. Qed.

Lemma dict_get_set {V} (k k' : py_key) (v : V) (d : list (py_key * V)) :
  dict_get key_eqb k (dict_set key_eqb k' v d) =
  if key_eqb k k' then Some v else dict_get key_eqb k d.
Proof.
  induction d as [| [kd vd] d IH]; cbn [dict_set dict_get].
  - now destruct (key_eqb k k').
  - destruct (key_eqb k' kd) eqn:E1; cbn [dict_get].
    + apply key_eqb_eq in E1. subst kd. now destruct (key_eqb k k').
    + destruct (key_eqb k kd) eqn:E2; [ | exact IH].
      apply key_eqb_eq in E2. subst kd.
      destruct (key_eqb k k') eqn:E3; [ | reflexivity].
      apply key_eqb_eq in E3. subst k'. now rewrite key_eqb_refl in E1.
Qed.

Lemma dict_set_keys_list {V} (k : py_key) (v : V) (d : list (py_key * V)) :
  map fst (dict_set key_eqb k v d) =
  if existsb (key_eqb k) (map fst d) then map fst d else (map fst d ++ [k])%list.
Proof.
  induction d as [| [kd vd] d IH]; cbn [dict_set map fst existsb app]; [reflexivity | ].
  destruct (key_eqb k kd); cbn [orb map fst]; [reflexivity | ].
  rewrite IH. now destruct (existsb (key_eqb k) (map fst d)).
Qed.

Lemma dict_set_NoDup {V} (k : py_key) (v : V) (d : list (py_key * V)) :
  NoDup (map fst d) -> NoDup (map fst (dict_set key_eqb k v d)).
Proof.
  intro H. rewrite dict_set_keys_list.
  destruct (existsb (key_eqb k) (map fst d)) eqn:E; [exact H | ].
  apply NoDup_app; [exact H | repeat constructor; intros [] | ].
  intros x Hx [Ek | []]. subst x.
  assert (existsb (key_eqb k) (map fst d) = true) as E'
    by (apply existsb_exists; exists k; split; [exact Hx | apply key_eqb_refl]).
  congruence.
Qed.

Lemma login_count_nonneg (k : py_key) (commits : list json) : 0 <= login_count k commits.
Proof. unfold login_count. apply count_where_bounds. Qed.

Lemma login_count_cons (k : py_key) (commit : json) (rest : list json) :
  login_count k (commit :: rest) =
  (match author_login commit with
   | Ok k' => if key_eqb k' k then 1 else 0
   | Err _ => 0
   end) + login_count k rest.
Proof. unfold login_count. cbn [count_where]. now destruct (author_login commit). Qed.

Lemma pure_tally_get (commits : list json) (d : list (py_key * Z)) (k : py_key) :
  dict_get key_eqb k (pure_tally commits d) =
  match dict_get key_eqb k d with
  | Some c => Some (c + login_count k commits)
  | None => if login_count k commits =? 0 then None else Some (login_count k commits)
  end.
Proof.
  revert d. induction commits as [| commit rest IH]; intro d.
  - cbn. destruct (dict_get key_eqb k d); [now rewrite Z.add_0_r | reflexivity].
  - pose proof (login_count_nonneg k rest) as Hn.
    cbn [pure_tally]. rewrite login_count_cons.
    destruct (author_login commit) as [k1 | x].
    + rewrite IH. unfold tally_one.
      destruct (key_eqb k1 k) eqn:E.
      * apply key_eqb_eq in E. subst k1.
        destruct (dict_get key_eqb k d) as [c | ]; rewrite dict_get_set, key_eqb_refl.
        -- f_equal. lia.
        -- destruct (Z.eqb_spec (1 + login_count k rest) 0); [lia | f_equal; lia].
      * assert (E' : key_eqb k k1 = false).
        { destruct (key_eqb k k1) eqn:E2; [ | reflexivity].
          apply key_eqb_eq in E2. subst k1. now rewrite key_eqb_refl in E. }
        destruct (dict_get key_eqb k1 d); rewrite dict_get_set, E'; now rewrite Z.add_0_l.
    + rewrite IH. now rewrite Z.add_0_l.
Qed.

Lemma pure_tally_NoDup (commits : list json) (d : list (py_key * Z)) :
  NoDup (map fst d) -> NoDup (map fst (pure_tally commits d)).
Proof.
  revert d. induction commits as [| commit rest IH]; intros d H; [exact H | ].
  cbn [pure_tally]. destruct (author_login commit) as [k | x]; [ | now apply IH].
  apply IH. unfold tally_one. destruct (dict_get key_eqb k d); now apply dict_set_NoDup.
Qed.

(** X7.  The counting loop of the Top-Author Aggregator always ends
    normally, and the tally it builds holds every login once, each with the
    number of commits that carry it: a login no commit carries is not in the
    tally, and a commit whose login cannot be read adds to no count. *)
Theorem author_tally_counts (commits : list json) (w : world) :
  exists dct_authors w',
    tally_authors commits [] w = (Ret dct_authors, w') /\
    NoDup (map fst dct_authors) /\
    forall k,
      dict_get key_eqb k dct_authors =
      if login_count k commits =? 0 then None else Some (login_count k commits).
Proof.
  rewrite tally_authors_spec. eexists. eexists. split; [reflexivity | ]. split.
  - apply pure_tally_NoDup. constructor.
  - intro k. now rewrite pure_tally_get.
Qed.

Lemma insert_desc_perm {K} (x : K * Z) (l : list (K * Z)) :
  Permutation (insert_desc x l) (x :: l).
Proof.
  induction l as [| y l IH]; cbn [insert_desc]; [apply Permutation_refl | ].
  destruct (snd y <=? snd x); [apply Permutation_refl | ].
  apply Permutation_trans with (y :: x :: l); [now constructor | apply perm_swap].
Qed.

Lemma sort_desc_perm {K} (l : list (K * Z)) : Permutation (sort_desc l) l.
Proof.
  induction l as [| x l IH]; cbn [sort_desc]; [constructor | ].
  apply Permutation_trans with (x :: sort_desc l); [apply insert_desc_perm | now constructor].
Qed.

Lemma insert_desc_sorted {K} (x : K * Z) (l : list (K * Z)) :
  StronglySorted (fun a b => snd b <= snd a) l ->
  StronglySorted (fun a b => snd b <= snd a) (insert_desc x l).
Proof.
  induction 1 as [| y l Hl IH Hy]; cbn [insert_desc].
  - repeat constructor.
  - destruct (Z.leb_spec (snd y) (snd x)) as [Hle | Hgt].
    + constructor; [now constructor | ].
      constructor; [exact Hle | ].
      rewrite Forall_forall in Hy |- *. intros z Hz. specialize (Hy z Hz). lia.
    + constructor; [exact IH | ].
      apply (Permutation_Forall (Permutation_sym (insert_desc_perm x l))).
      constructor; [lia | exact Hy].
Qed.

Lemma sort_desc_sorted {K} (l : list (K * Z)) :
  StronglySorted (fun a b => snd b <= snd a) (sort_desc l).
Proof.
  induction l as [| x l IH]; cbn [sort_desc]; [constructor | now apply insert_desc_sorted].
Qed.

(** X8.  The ranking is the head of the tally put in descending order of
    count: together with the items it leaves out it is a rearrangement of the
    tally in which no count is followed by a larger one; it has [top_count]
    items, or all of them when there are fewer, and none when [top_count] is
    zero or negative. *)
Theorem ranking_is_top {K} (top_count : Z) (d : list (K * Z)) :
  (exists rest,
      Permutation (most_common top_count d ++ rest) d /\
      StronglySorted (fun a b => snd b <= snd a) (most_common top_count d ++ rest)) /\
  List.length (most_common top_count d) = Nat.min (Z.to_nat top_count) (List.length d) /\
  (top_count <= 0 -> most_common top_count d = []).
Proof.
  unfold most_common. split; [ | split].
  - exists (skipn (Z.to_nat top_count) (sort_desc d)). rewrite firstn_skipn.
    split; [apply sort_desc_perm | apply sort_desc_sorted].
  - rewrite length_firstn. now rewrite (Permutation_length (sort_desc_perm d)).
  - intro H. replace (Z.to_nat top_count) with 0%nat by lia. reflexivity.
Qed.

Lemma ranking_is_top_witness :
  most_common (-1) [("alice", 2); ("bob", 1)] = [].
Proof. apply (proj2 (proj2 (ranking_is_top (-1) [("alice", 2); ("bob", 1)]))). lia. Defined.

Lemma insert_desc_filter {K} (c : Z) (x : K * Z) (l : list (K * Z)) :
  filter (fun z => snd z =? c) (insert_desc x l) =
  filter (fun z => snd z =? c) (x :: l).
Proof.
  induction l as [| y l IH]; cbn [insert_desc]; [reflexivity | ].
  destruct (Z.leb_spec (snd y) (snd x)) as [Hle | Hgt]; [reflexivity | ].
  cbn [filter] in IH |- *. rewrite IH.
  destruct (Z.eqb_spec (snd y) c), (Z.eqb_spec (snd x) c); try reflexivity. lia.
Qed.

(** X9.  Authors with the same number of commits keep, in the ranking
    order, the order in which they came into the tally, that is the order of
    their first commits in the data: the order of ties is fixed. *)
Theorem ranking_ties_in_tally_order {K} (c : Z) (d : list (K * Z)) :
  filter (fun z => snd z =? c) (sort_desc d) = filter (fun z => snd z =? c) d.
Proof.
  induction d as [| x d IH]; [reflexivity | ].
  cbn [sort_desc]. rewrite insert_desc_filter. cbn [filter]. now rewrite IH.
Qed.

(** * The Report Driver *)

Lemma exits_ret {A} (a : A) : exits_with_1_only (ret a).
Proof. intros w c H. discriminate H. Qed.

Lemma exits_raise {A} (e : exn) : exits_with_1_only (@raise A e).
Proof. intros w c H. discriminate H. Qed.

Lemma exits_sys_exit_1 {A} : exits_with_1_only (@sys_exit A 1).
Proof. intros w c H. now injection H as <-. Qed.

Lemma exits_lift {A} (r : result A) : exits_with_1_only (lift r).
Proof. destruct r; [apply exits_ret | apply exits_raise]. Qed.

Lemma exits_print (text : string) : exits_with_1_only (print text).
Proof. intros w c H. discriminate H. Qed.

Lemma exits_write_log (event : string) : exits_with_1_only (write_log event).
Proof. intros w c H. discriminate H. Qed.

Lemma exits_log_overwrite (text : string) : exits_with_1_only (log_overwrite text).
Proof. intros w c H. discriminate H. Qed.

Lemma exits_now : exits_with_1_only datetime_now.
Proof. intros w c H. discriminate H. Qed.

Lemma exits_input (prompt : string) : exits_with_1_only (input prompt).
Proof. intros w c H. unfold input in H. destruct (w_typed w); discriminate H. Qed.

Lemma exits_getpass : exits_with_1_only getpass.
Proof. intros w c H. unfold getpass in H. destruct (w_typed w); discriminate H. Qed.

Lemma exits_requests_get (url : string) (params : list (string * string))
    (auth : string * string) : exits_with_1_only (requests_get url params auth).
Proof.
  intros w c H. unfold requests_get in H. destruct (w_net w) as [| [r | e] net]; discriminate H.
Qed.

Lemma exits_bind {A B} (m : M A) (f : A -> M B) :
  exits_with_1_only m -> (forall a, exits_with_1_only (f a)) -> exits_with_1_only (bind m f).
Proof.
  intros Hm Hf w c H. unfold bind in H. specialize (Hm w).
  destruct (m w) as [[a | e | c'] w1]; cbn [fst] in *.
  - exact (Hf a w1 c H).
  - discriminate H.
  - injection H as <-. now apply Hm.
Qed.

Create HintDb exits.
#[local] Hint Resolve exits_ret exits_raise exits_sys_exit_1 exits_lift exits_print
  exits_write_log exits_log_overwrite exits_now exits_input exits_getpass
  exits_requests_get : exits.

Ltac exits :=
  repeat first
    [ solve [auto with exits]
    | apply exits_bind; [ | intro ] ].

Lemma exits_tally (commits : list json) (dct : list (py_key * Z)) :
  exits_with_1_only (tally_authors commits dct).
Proof.
  intros w c H. rewrite tally_authors_spec in H. discriminate H.
Qed.

Lemma exits_print_rows (top_authors : list (py_key * Z)) :
  exits_with_1_only (print_rows top_authors).
Proof.
  intros w c H. rewrite print_rows_spec in H. cbn [fst] in H.
  destruct (snd (printed_rows top_authors)); discriminate H.
Qed.

Lemma exits_count_states (data : list json) (count_dct : list (string * Z)) :
  exits_with_1_only (count_states data count_dct).
Proof.
  revert count_dct. induction data as [| row data IH]; intro count_dct; cbn [count_states].
  - auto with exits.
  - destruct (count_one row count_dct); [apply IH | ]. exits.
Qed.

Lemma exits_print_counts (what : string) (items : list (string * Z)) :
  exits_with_1_only (print_counts what items).
Proof.
  induction items as [| [k v] items IH]; cbn [print_counts]; exits.
Qed.

#[local] Hint Resolve exits_tally exits_print_rows exits_count_states exits_print_counts : exits.

Lemma exits_get_top_authors (data : json) (b e : datetime) (n : Z) :
  exits_with_1_only (get_top_authors data b e n).
Proof.
  unfold get_top_authors. exits.
  match goal with |- exits_with_1_only (if ?c then _ else _) => destruct c end; exits.
  match goal with |- exits_with_1_only (if ?c then _ else _) => destruct c end; exits.
Qed.

Lemma exits_get_count (data : json) (b e : datetime) : exits_with_1_only (get_count data b e).
Proof. unfold get_count. exits. Qed.

Lemma exits_get_count_old (format_exc : exn -> string) (data : json) (days : Z) :
  exits_with_1_only (get_count_old format_exc data days).
Proof.
  unfold get_count_old. exits.
  match goal with |- exits_with_1_only (match ?r with _ => _ end) => destruct r end; exits.
Qed.

Lemma exits_get_data (url branch username password : string) :
  exits_with_1_only (get_data url branch username password).
Proof.
  rewrite get_data_unfold. apply exits_bind; [auto with exits | intro res].
  destruct (r_ok res); exits.
  intros w c H.
  pose proof (follow_links_no_exit (w_net w) (w_sent w) (request_params url branch)
                (username, password) res a c) as Hne.
  destruct (follow_links (w_net w) (w_sent w) (request_params url branch)
              (username, password) res a) as [o [net sent]].
  cbn [fst] in *. contradiction.
Qed.

#[local] Hint Resolve exits_get_top_authors exits_get_count exits_get_count_old
  exits_get_data : exits.

Lemma exits_get_stat_repo (format_exc : exn -> string) (url date_begin date_end branch : string) :
  exits_with_1_only (get_stat_repo format_exc url date_begin date_end branch).
Proof.
  unfold get_stat_repo. cbv zeta. exits.
  match goal with |- exits_with_1_only (match ?l with _ => _ end) => destruct l as [| ? [| ? ?]] end;
    exits.
Qed.

(** X10.  A run ends in one of two ways only: it returns, or the process
    exits with code 1.  No exception leaves [main], and no other exit code
    is ever used. *)
Theorem main_returns_or_exits_1 (format_exc : exn -> string)
    (url date_begin date_end branch : string) (w : world) :
  fst (main format_exc url date_begin date_end branch w) = Ret tt \/
  fst (main format_exc url date_begin date_end branch w) = Exit 1.
Proof.
  unfold main.
  pose proof (exits_get_stat_repo format_exc url date_begin date_end branch w) as Hexit.
  destruct (get_stat_repo format_exc url date_begin date_end branch w) as [[[] | e | c] w'];
    cbn [fst] in *.
  - now left.
  - right. reflexivity.
  - right. now rewrite (Hexit c eq_refl).
Qed.

Lemma split_no_slash (url : string) : no_slash url = true -> split "/" url = [url].
Proof.
  intro H. unfold split. unfold no_slash in H.
  rewrite (split_on_no_sep "/" _ H). cbn [map]. now rewrite string_of_list_ascii_of_string.
Qed.

(** X11.  No request is sent before the repository and the credentials are
    known.  A URL without any slash ends the run with exit code 1 and an
    entry "Incorrect URL of repo" in error.log, before the prompt.  With a
    usable URL but fewer than two lines to read for the login and the
    secret, the [EOFError] is caught by [main], its traceback is logged and
    the run ends with exit code 1. *)
Theorem run_stops_before_fetching (format_exc : exn -> string)
    (url date_begin date_end branch : string) (b e : datetime) (w : world) :
  convert_string_to_iso_date (JStr date_begin) = Ok b ->
  convert_string_to_iso_date (JStr date_end) = Ok e ->
  (no_slash url = true ->
   exists w',
     main format_exc url date_begin date_end branch w = (Exit 1, w') /\
     w_log w' = (w_log w ++ [(str_datetime (w_clock w (w_ticks w)) ++ ": " ++ tab ++ " "
                              ++ ("Incorrect URL of repo " ++ url ++ "." ++ nl))%string])%list /\
     w_sent w' = w_sent w /\ w_typed w' = w_typed w) /\
  (forall owner name,
      lastn 2 (split "/" url) = [owner; name] ->
      (List.length (w_typed w) < 2)%nat ->
      exists w',
        main format_exc url date_begin date_end branch w = (Exit 1, w') /\
        w_log w' = (w_log w ++ [(str_datetime (w_clock w (w_ticks w)) ++ ": " ++ tab ++ " "
                                 ++ format_exc (EOFError "EOF when reading a line"))%string])%list /\
        w_sent w' = w_sent w).
Proof.
  intros Hb He. split.
  - intro Hurl. unfold main, get_stat_repo. cbv zeta. rewrite (split_no_slash url Hurl).
    unfold bind at 1. rewrite Hb. cbn [lift]. unfold ret at 1.
    unfold bind at 1. rewrite He. cbn [lift]. unfold ret at 1.
    eexists. split; [reflexivity | ]. repeat split.
  - intros owner name Hrepo Htyped. unfold main, get_stat_repo. cbv zeta. rewrite Hrepo.
    unfold bind at 1. rewrite Hb. cbn [lift]. unfold ret at 1.
    unfold bind at 1. rewrite He. cbn [lift]. unfold ret at 1.
    unfold bind at 1. unfold ret at 1.
    unfold bind at 1, input at 1.
    destruct (w_typed w) as [| l1 [| l2 typed]] eqn:Ht.
    + eexists. split; [reflexivity | ]. split; reflexivity.
    + unfold bind at 1, getpass at 1. cbn [w_typed set_typed set_out].
      eexists. split; [reflexivity | ]. split; reflexivity.
    + cbn [List.length] in Htyped. lia.
Qed.

Lemma run_stops_before_fetching_witness :
  (exists w',
      main sample_format_exc "not-a-repository" "1970-01-01T00:00:00Z" "3000-12-31T23:59:59Z"
        "master" w0 = (Exit 1, w') /\
      w_sent w' = []) /\
  (exists w',
      main sample_format_exc "https://github.com/a/b" "1970-01-01T00:00:00Z"
        "3000-12-31T23:59:59Z" "master" (set_typed ["user"] w0) = (Exit 1, w') /\
      w_sent w' = []).
Proof.
  split.
  - destruct (proj1 (run_stops_before_fetching sample_format_exc "not-a-repository"
                       "1970-01-01T00:00:00Z" "3000-12-31T23:59:59Z" "master"
                       (mkdt 1970 1 1 0 0 0 0) (mkdt 3000 12 31 23 59 59 0) w0
                       eq_refl eq_refl) eq_refl)
      as (w' & Hrun & _ & Hsent & _).
    exists w'. split; [exact Hrun | exact Hsent].
  - destruct (proj2 (run_stops_before_fetching sample_format_exc "https://github.com/a/b"
                       "1970-01-01T00:00:00Z" "3000-12-31T23:59:59Z" "master"
                       (mkdt 1970 1 1 0 0 0 0) (mkdt 3000 12 31 23 59 59 0)
                       (set_typed ["user"] w0) eq_refl eq_refl) "a" "b" eq_refl)
      as (w' & Hrun & _ & Hsent).
    + cbn. lia.
    + exists w'. split; [exact Hrun | exact Hsent].
Defined.

(** * More on the Date Normalizer and the window *)

Lemma re_match_iso_letters (y1 y2 y3 y4 m1 m2 d1 d2 h1 h2 n1 n2 s1 s2 cT cZ : ascii) :
  forallb is_digit [y1; y2; y3; y4; m1; m2; d1; d2; h1; h2; n1; n2; s1; s2] = true ->
  lit_nocase "T" "t" cT = true ->
  lit_nocase "Z" "z" cZ = true ->
  re_match iso_regex
    [y1; y2; y3; y4; "-"; m1; m2; "-"; d1; d2; cT; h1; h2; ":"; n1; n2; ":"; s1; s2; cZ]%char =
  if accept2 re_m m1 m2 && accept2 re_d d1 d2 && accept2 re_H h1 h2
     && accept2 re_M n1 n2 && accept2 re_S s1 s2
  then Some ([[y1; y2; y3; y4]; [m1; m2]; [d1; d2]; [h1; h2]; [n1; n2]; [s1; s2]], [])
  else None.
Proof.
  intros H HT HZ. cbn [forallb] in H.
  repeat (apply andb_true_iff in H; destruct H as [? H]).
  unfold iso_regex.
  rewrite re_match_Y by assumption.
  rewrite re_match_Lit by reflexivity.
  rewrite (re_match_two re_m) by (try reflexivity; now apply dash_not_digit).
  rewrite re_match_Lit by reflexivity.
  rewrite (re_match_two re_d) by (try reflexivity; now apply T_not_digit).
  rewrite re_match_Lit by exact HT.
  rewrite (re_match_two re_H) by (try reflexivity; now apply colon_not_digit).
  rewrite re_match_Lit by reflexivity.
  rewrite (re_match_two re_M) by (try reflexivity; now apply colon_not_digit).
  rewrite re_match_Lit by reflexivity.
  rewrite (re_match_two re_S) by (try reflexivity; now apply Z_not_digit).
  rewrite re_match_Lit by exact HZ.
  destruct (accept2 re_m m1 m2), (accept2 re_d d1 d2), (accept2 re_H h1 h2),
    (accept2 re_M n1 n2), (accept2 re_S s1 s2); reflexivity.
Qed.

(** X12.  The Date Normalizer does not tell a small [t] or [z] from the
    capital letter: a timestamp written with either letter in small is
    accepted exactly when the one with capitals is, and gives the same
    instant. *)
Theorem normalizer_ignores_letter_case
    (y1 y2 y3 y4 m1 m2 d1 d2 h1 h2 n1 n2 s1 s2 cT cZ : ascii) (t : datetime) :
  forallb is_digit [y1; y2; y3; y4; m1; m2; d1; d2; h1; h2; n1; n2; s1; s2] = true ->
  lit_nocase "T" "t" cT = true ->
  lit_nocase "Z" "z" cZ = true ->
  convert_string_to_iso_date
    (JStr (string_of_list_ascii
       [y1; y2; y3; y4; "-"; m1; m2; "-"; d1; d2; cT; h1; h2; ":"; n1; n2; ":"; s1; s2; cZ]%char))
    = Ok t <->
  convert_string_to_iso_date
    (JStr (string_of_list_ascii
       [y1; y2; y3; y4; "-"; m1; m2; "-"; d1; d2; "T"; h1; h2; ":"; n1; n2; ":"; s1; s2; "Z"]%char))
    = Ok t.
Proof.
  intros Hd HT HZ. cbn [convert_string_to_iso_date]. unfold strptime_iso.
  rewrite !list_ascii_of_string_of_list_ascii.
  rewrite (re_match_iso_letters _ _ _ _ _ _ _ _ _ _ _ _ _ _ cT cZ Hd HT HZ).
  rewrite (re_match_iso _ _ _ _ _ _ _ _ _ _ _ _ _ _ Hd).
  destruct (accept2 re_m m1 m2 && accept2 re_d d1 d2 && accept2 re_H h1 h2
            && accept2 re_M n1 n2 && accept2 re_S s1 s2); [tauto | ].
  split; discriminate.
Qed.

Lemma normalizer_ignores_letter_case_witness :
  convert_string_to_iso_date (JStr "2020-06-01t12:00:00z") = Ok (mkdt 2020 6 1 12 0 0 0).
Proof.
  apply (proj2 (normalizer_ignores_letter_case "2" "0" "2" "0" "0" "6" "0" "1" "1" "2"
                  "0" "0" "0" "0" "t" "z" (mkdt 2020 6 1 12 0 0 0)
                  eq_refl eq_refl eq_refl)).
  reflexivity.
Defined.

Lemma lex_cmp_le_trans (a b c : list Z) :
  List.length a = List.length b -> List.length b = List.length c ->
  lex_cmp a b <> Gt -> lex_cmp b c <> Gt -> lex_cmp a c <> Gt.
Proof.
  revert b c. induction a as [| x a IH]; intros [| y b] [| z c] Hab Hbc; try discriminate;
    cbn [lex_cmp]; try congruence.
  injection Hab as Hab. injection Hbc as Hbc.
  destruct (Z.compare_spec x y) as [Exy | Lxy | Gxy]; [ | | congruence];
    (destruct (Z.compare_spec y z) as [Eyz | Lyz | Gyz]; [ | | congruence]); intros H1 H2.
  - subst. rewrite Z.compare_refl. now apply (IH b c).
  - replace (x ?= z) with Lt by (symmetry; apply Z.compare_lt_iff; lia). discriminate.
  - replace (x ?= z) with Lt by (symmetry; apply Z.compare_lt_iff; lia). discriminate.
  - replace (x ?= z) with Lt by (symmetry; apply Z.compare_lt_iff; lia). discriminate.
Qed.

Lemma dt_leb_trans (a b c : datetime) :
  dt_leb a b = true -> dt_leb b c = true -> dt_leb a c = true.
Proof.
  unfold dt_leb, dt_cmp. intros H1 H2.
  pose proof (lex_cmp_le_trans (dt_fields a) (dt_fields b) (dt_fields c) eq_refl eq_refl) as H.
  destruct (lex_cmp (dt_fields a) (dt_fields b)); try discriminate H1;
    destruct (lex_cmp (dt_fields b) (dt_fields c)); try discriminate H2;
    destruct (lex_cmp (dt_fields a) (dt_fields c)); try reflexivity;
    exfalso; apply H; congruence.
Qed.

Lemma inverted_window_keeps_nothing (stamp : json -> result json) (b e : datetime)
    (rows : list json) :
  dt_leb b e = false -> filter (row_in_window stamp b e) rows = [].
Proof.
  intro H. induction rows as [| row rows IH]; [reflexivity | ].
  cbn [filter]. unfold row_in_window at 1.
  destruct (row_time stamp row) as [t | x]; [ | exact IH].
  unfold in_window. destruct (dt_leb b t) eqn:H1; [ | exact IH].
  destruct (dt_leb t e) eqn:H2; [ | exact IH].
  rewrite (dt_leb_trans b t e H1 H2) in H. discriminate H.
Qed.

(** X13.  A window whose begin is later than its end is no error: both
    aggregators find no record inside it.  The State Counter returns zero
    for [open] and for [closed], and the Top-Author Aggregator prints the
    header and the rule of its table and nothing below them. *)
Theorem inverted_window_is_empty (begin end_ : datetime) (w : world) :
  dt_leb begin end_ = false ->
  (forall raw_data rows,
      py_iter raw_data = Ok rows ->
      Forall (fun row => exists t, row_time created_at row = Ok t) rows ->
      get_count raw_data begin end_ w = (Ret [("open", 0); ("closed", 0)], w)) /\
  (forall data rows top_count,
      py_iter data = Ok rows ->
      Forall (fun row => exists t, row_time author_date row = Ok t) rows ->
      get_top_authors data begin end_ top_count w =
      (Ret None, set_out (w_out w ++ [table_header ++ nl; table_rule ++ nl]) w)).
Proof.
  intro Hinv. split.
  - intros raw_data rows Hit Hrows.
    pose proof (window_filter_total created_at rows begin end_ Hrows) as Hf.
    rewrite (inverted_window_keeps_nothing created_at begin end_ rows Hinv) in Hf.
    rewrite (get_count_spec raw_data rows [] begin end_ w Hit Hf).
    cbn [count_where log_after_count]. now rewrite set_log_same.
  - intros data rows n Hit Hrows.
    pose proof (window_filter_total author_date rows begin end_ Hrows) as Hf.
    rewrite (inverted_window_keeps_nothing author_date begin end_ rows Hinv) in Hf.
    rewrite (get_top_authors_spec data rows [] begin end_ n w Hit Hf).
    unfold most_common. cbn [pure_tally sort_desc]. rewrite firstn_nil.
    cbn [printed_rows fst snd count_where tally_entries Z.to_nat Nat.mul].
    rewrite !app_nil_r, Nat.add_0_r. now destruct w.
Qed.

Lemma inverted_window_is_empty_witness :
  get_count (JArr sample_pulls) year_2020_end year_2020_begin w0 =
  (Ret [("open", 0); ("closed", 0)], w0).
Proof.
  apply (proj1 (inverted_window_is_empty year_2020_end year_2020_begin w0 eq_refl)
           (JArr sample_pulls) sample_pulls eq_refl).
  repeat constructor; eexists; reflexivity.
Defined.

(** * More on the Staleness Counter and the driver *)

Lemma count_old_loop_cases (now limit : datetime) (days : Z) (rows : list json) (acc : Z) :
  Forall (fun row => exists t, row_time created_at row = Ok t) rows ->
  sub_days now days = Ok limit ->
  count_old_loop now days rows acc =
  if existsb (old_without_state limit) rows then Err (KeyError "state")
  else Ok (acc + count_where (is_stale limit) rows).
Proof.
  intros Hrows Hlimit. revert acc.
  induction Hrows as [| row rows [t Ht] _ IH]; intro acc.
  - cbn [count_old_loop count_where existsb]. now rewrite Z.add_0_r.
  - cbn [count_old_loop count_where existsb].
    unfold is_stale at 1. unfold old_without_state at 1. rewrite Ht.
    destruct (row_time_object "created_at" row t Ht) as [d ->].
    unfold row_time in Ht. unfold state_missing, state_is.
    destruct (created_at (JObj d)) as [v | x]; [cbn [rbind] in Ht |- * | discriminate Ht].
    rewrite Ht. cbn [rbind]. rewrite Hlimit. cbn [rbind].
    destruct (dt_leb t limit); cbn [andb orb].
    + cbn [subscript]. destruct (dict_get String.eqb "state" d) as [st | ]; cbn [rbind orb].
      * destruct (py_eq_str st "open"); rewrite IH;
          destruct (existsb (old_without_state limit) rows); try reflexivity; f_equal; lia.
      * reflexivity.
    + rewrite IH. destruct (existsb (old_without_state limit) rows); [reflexivity | ].
      f_equal.
Qed.

(** X14.  The Staleness Counter reads the state of a record only when the
    record is old enough.  On records with readable creation timestamps it
    returns the number of open records created at the limit or before, unless
    one of the records that old has no state: then, and only then, it returns
    [None] and logs the traceback of the [KeyError].  A record without state
    that is younger than the limit does no harm. *)
Theorem stale_count_defined (format_exc : exn -> string) (rows : list json)
    (days_to_old : Z) (limit : datetime) (w : world) :
  Forall (fun row => exists t, row_time created_at row = Ok t) rows ->
  sub_days (w_clock w (w_ticks w)) days_to_old = Ok limit ->
  get_count_old format_exc (JArr rows) days_to_old w =
  if existsb (old_without_state limit) rows then
    (Ret None,
     set_ticks (S (S (w_ticks w)))
       (set_log (w_log w ++ [str_datetime (w_clock w (S (w_ticks w))) ++ ": " ++ tab ++ " "
                             ++ format_exc (KeyError "state")]) w))
  else
    (Ret (Some (count_where (is_stale limit) rows)), set_ticks (S (w_ticks w)) w).
Proof.
  intros Hrows Hlimit. unfold get_count_old, bind, datetime_now. cbn [py_iter rbind].
  rewrite (count_old_loop_cases _ limit days_to_old rows 0 Hrows Hlimit).
  destruct (existsb (old_without_state limit) rows); reflexivity.
Qed.

Lemma stale_count_defined_witness :
  get_count_old sample_format_exc
    (JArr [item_in_state "open" T0; item_without_state "2026-11-01T00:00:00Z"]) 14 w0 =
  (Ret (Some 1), set_ticks 1 w0).
Proof.
  apply (stale_count_defined sample_format_exc
           [item_in_state "open" T0; item_without_state "2026-11-01T00:00:00Z"] 14
           (mkdt 2026 10 20 10 0 0 5) w0).
  - repeat constructor; eexists; reflexivity.
  - reflexivity.
Defined.

(** X15.  The two dates of the window are converted before anything else:
    when one of them is not in the format, the [ValueError] is caught by
    [main], its traceback is appended to error.log, and the run ends with
    exit code 1 without a prompt and without a request, whatever the URL. *)
Theorem bad_date_stops_run (format_exc : exn -> string)
    (url date_begin date_end branch : string) (x : exn) (w : world) :
  convert_string_to_iso_date (JStr date_begin) = Err x \/
  ((exists b, convert_string_to_iso_date (JStr date_begin) = Ok b) /\
   convert_string_to_iso_date (JStr date_end) = Err x) ->
  main format_exc url date_begin date_end branch w =
  (Exit 1,
   set_out (w_out w ++ ["An error has occurred. Details in the log file error.log" ++ nl])
     (set_ticks (S (w_ticks w))
        (set_log (w_log w ++ [str_datetime (w_clock w (w_ticks w)) ++ ": " ++ tab ++ " "
                              ++ format_exc x]) w))).
Proof.
  intros [Hb | [[b Hb] He]]; unfold main, get_stat_repo; cbv zeta.
  - unfold bind at 1. rewrite Hb. reflexivity.
  - unfold bind at 1. rewrite Hb. cbn [lift]. unfold ret at 1.
    unfold bind at 1. rewrite He. reflexivity.
Qed.

Lemma bad_date_stops_run_witness :
  fst (main sample_format_exc "https://github.com/a/b" "2020-06-01" "3000-12-31T23:59:59Z"
         "master" w0) = Exit 1.
Proof.
  rewrite (bad_date_stops_run sample_format_exc "https://github.com/a/b" "2020-06-01"
             "3000-12-31T23:59:59Z" "master"
             (ValueError "time data '2020-06-01' does not match format '%Y-%m-%dT%H:%M:%SZ'")
             w0 (or_introl eq_refl)).
  reflexivity.
Defined.
